(** * ProxyUIDocument: the page script [src/js/main.js]

    A shallow embedding of the documentation page's script.  The live
    document is a store of elements addressed by position (a JavaScript
    reference to an element is the position of that element in the store),
    so that two references to one element alias the way they do in the
    browser.  Every function of [main.js] is a transformer of the page
    state; the platform's own operations ([classList], [getElementById],
    [querySelector], [closest], [contains], [setTimeout],
    [history.replaceState], the intersection observer) are modelled next
    to it, as far as the script uses them. *)

From Stdlib Require Import ZArith QArith Qminmax Lqa Ascii String.
From stdpp Require Import base list strings.

Local Open Scope string_scope.
Local Open Scope list_scope.
Local Open Scope nat_scope.
Local Close Scope Q_scope.

(** ** The class attribute as the platform's token list *)

Module DomTokenList.

(** ASCII whitespace of the HTML standard: TAB, LF, FF, CR and SPACE. *)
Definition is_ascii_whitespace (a : ascii) : bool :=
  match a with
  | "009" | "010" | "012" | "013" | " " => true
  | _ => false
  end%char.

Definition cons_token (w : string) (ws : list string) : list string :=
  if decide (w = "") then ws else w :: ws.

(** [split_go s] is the token that starts at the head of [s] (empty when
    [s] starts with whitespace) and the tokens after it. *)
Fixpoint split_go (s : string) : string * list string :=
  match s with
  | "" => ("", [])
  | String a s' =>
      let '(w, ws) := split_go s' in
      if is_ascii_whitespace a then ("", cons_token w ws)
      else (String a w, ws)
  end.

(** Split on ASCII whitespace. *)
Definition split_on_whitespace (s : string) : list string :=
  let '(w, ws) := split_go s in cons_token w ws.

(** Appending to an ordered set keeps the first occurrence. *)
Definition set_append (tokens : list string) (t : string) : list string :=
  if decide (t ∈ tokens) then tokens else tokens ++ [t].

(** The ordered set parser. *)
Definition parse (s : string) : list string :=
  foldl set_append [] (split_on_whitespace s).

(** The ordered set serializer: tokens joined by one space. *)
Fixpoint serialize (tokens : list string) : string :=
  match tokens with
  | [] => ""
  | [t] => t
  | t :: ts => t ++ " " ++ serialize ts
  end.

(** [el.classList.contains(t)] *)
Definition contains (t : string) (cls : string) : bool :=
  bool_decide (t ∈ parse cls).

(** [el.classList.add(t1, ..., tn)] *)
Definition add (ts : list string) (cls : string) : string :=
  serialize (foldl set_append (parse cls) ts).

(** [el.classList.remove(t1, ..., tn)] *)
Definition remove (ts : list string) (cls : string) : string :=
  serialize (filter (λ t, t ∉ ts) (parse cls)).

(** [el.classList.toggle(t)] *)
Definition toggle (t : string) (cls : string) : string :=
  if contains t cls then remove [t] cls else add [t] cls.

(** A string that can be a token: not empty and free of whitespace. *)
Fixpoint no_whitespace (s : string) : bool :=
  match s with
  | "" => true
  | String a s' => negb (is_ascii_whitespace a) && no_whitespace s'
  end.

Definition is_token (s : string) : bool :=
  negb (bool_decide (s = "")) && no_whitespace s.

(** What the parser returns: tokens, each once. *)
Definition tokens_ok (l : list string) : Prop :=
  Forall (λ t, is_token t = true) l ∧ NoDup l.

End DomTokenList.

(** ** The document: elements, lookups and tree relations *)

Module Dom.

(** An element, with the attributes and properties the script reads or
    writes.  [parent] is the position of the parent element in the store
    ([None] for a child of the body).  The content of a control is kept
    as its markup text [innerHTML].  Strings are held as their UTF-8
    bytes. *)
Record Element := mkNode {
  tag : string;
  id : string;
  className : string;
  onclick : option string;
  innerHTML : string;
  textContent : string;
  innerText : string;
  style_color : string;
  style_borderColor : string;
  parent : option nat;
  value : string;
  style_position : string;
  style_opacity : string;
  style_pointerEvents : string;
  style_animationDelay : string
}.

(** An element as the page is authored: no form value and none of the
    inline style properties the script sets on elements of its own. *)
Definition mkElement (tg i cls : string) (oc : option string)
    (html text itext color borderColor : string) (par : option nat)
  : Element :=
  mkNode tg i cls oc html text itext color borderColor par "" "" "" "" "".

Definition set_className (c : string) (e : Element) : Element :=
  mkNode (tag e) (id e) c (onclick e) (innerHTML e) (textContent e)
    (innerText e) (style_color e) (style_borderColor e) (parent e)
    (value e) (style_position e) (style_opacity e) (style_pointerEvents e)
    (style_animationDelay e).

Definition set_innerHTML (h : string) (e : Element) : Element :=
  mkNode (tag e) (id e) (className e) (onclick e) h (textContent e)
    (innerText e) (style_color e) (style_borderColor e) (parent e)
    (value e) (style_position e) (style_opacity e) (style_pointerEvents e)
    (style_animationDelay e).

Definition set_style_color (c : string) (e : Element) : Element :=
  mkNode (tag e) (id e) (className e) (onclick e) (innerHTML e)
    (textContent e) (innerText e) c (style_borderColor e) (parent e)
    (value e) (style_position e) (style_opacity e) (style_pointerEvents e)
    (style_animationDelay e).

Definition set_style_borderColor (c : string) (e : Element) : Element :=
  mkNode (tag e) (id e) (className e) (onclick e) (innerHTML e)
    (textContent e) (innerText e) (style_color e) c (parent e)
    (value e) (style_position e) (style_opacity e) (style_pointerEvents e)
    (style_animationDelay e).

Definition set_style_animationDelay (v : string) (e : Element) : Element :=
  mkNode (tag e) (id e) (className e) (onclick e) (innerHTML e)
    (textContent e) (innerText e) (style_color e) (style_borderColor e)
    (parent e) (value e) (style_position e) (style_opacity e)
    (style_pointerEvents e) v.

Definition has_class (c : string) (e : Element) : bool :=
  DomTokenList.contains c (className e).

Definition classList_add (ts : list string) (e : Element) : Element :=
  set_className (DomTokenList.add ts (className e)) e.

Definition classList_remove (ts : list string) (e : Element) : Element :=
  set_className (DomTokenList.remove ts (className e)) e.

Definition classList_toggle (t : string) (e : Element) : Element :=
  set_className (DomTokenList.toggle t (className e)) e.

(** The store lists the elements in tree order. *)
Abbreviation Document := (list Element).

(** Position of the first element, from position [i] on, that satisfies
    [P]. *)
Fixpoint find_from (P : nat → Element → bool) (i : nat) (d : Document)
  : option nat :=
  match d with
  | [] => None
  | e :: d' => if P i e then Some i else find_from P (S i) d'
  end.

(** Positions of all the elements that satisfy [P], in tree order. *)
Fixpoint all_from (P : Element → bool) (i : nat) (d : Document) : list nat :=
  match d with
  | [] => []
  | e :: d' => if P e then i :: all_from P (S i) d' else all_from P (S i) d'
  end.

(** [document.getElementById(i)]: the first element with that id; an
    empty id names no element. *)
Definition getElementById (i : string) (d : Document) : option nat :=
  if decide (i = "") then None
  else find_from (λ _ e, bool_decide (id e = i)) 0 d.

(** [document.querySelectorAll('.c')] *)
Definition querySelectorAll_class (c : string) (d : Document) : list nat :=
  all_from (has_class c) 0 d.

(** [document.querySelector('.c')] *)
Definition querySelector_class (c : string) (d : Document) : option nat :=
  find_from (λ _ e, has_class c e) 0 d.

(** [s] occurs in [t]. *)
Fixpoint is_infix (s t : string) : bool :=
  String.prefix s t ||
  match t with
  | "" => false
  | String _ t' => is_infix s t'
  end.

(** The first element whose [onclick] attribute contains [v]; an empty
    [v] is contained in none. *)
Definition first_onclick_containing (v : string) (d : Document) : option nat :=
  if decide (v = "") then None
  else find_from (λ _ e, from_option (is_infix v) false (onclick e)) 0 d.

(** The characters with a meaning of their own inside a quoted CSS
    string: the quote that ends it, the backslash that starts an escape,
    the line breaks that make it a bad string, and NUL, which the CSS
    parser replaces. *)
Definition css_special (a : ascii) : bool :=
  match a with
  | "000" | "010" | "012" | "013" | "034" | "092" => true
  | _ => false
  end%char.

Fixpoint css_plain (v : string) : bool :=
  match v with
  | "" => true
  | String a v' => negb (css_special a) && css_plain v'
  end.

(** What [querySelector] answers: an element or null, or a [SyntaxError]
    for a selector it cannot parse. *)
Inductive QueryResult :=
| Found (r : option nat)
| InvalidSelector.

(** [document.querySelector('[onclick*="v"]')].  The script splices [v]
    into the selector text as it is.  For a [v] without special
    characters the selector is an attribute selector with the string [v],
    and the answer is the first element whose [onclick] contains [v].
    For any other [v] the text is whatever selector, or no selector, the
    CSS grammar makes of it, and the answer is the browser's: [engine]. *)
Definition querySelector_onclick
    (engine : string → Document → QueryResult) (v : string) (d : Document)
  : QueryResult :=
  if css_plain v then Found (first_onclick_containing v d) else engine v d.

(** [a.contains(t)]: [t] is [a] or a descendant of [a]. *)
Fixpoint contains_go (fuel : nat) (a t : nat) (d : Document) : bool :=
  match fuel with
  | 0 => false
  | S fuel' =>
      match d !! t with
      | None => false
      | Some e =>
          if decide (a = t) then true
          else match parent e with
               | None => false
               | Some p => contains_go fuel' a p d
               end
      end
  end.

Definition contains (a t : nat) (d : Document) : bool :=
  contains_go (length d) a t d.

(** [el.closest('.c')]: the nearest of [el] and its ancestors with class
    [c]. *)
Fixpoint closest_go (fuel : nat) (c : string) (i : nat) (d : Document)
  : option nat :=
  match fuel with
  | 0 => None
  | S fuel' =>
      match d !! i with
      | None => None
      | Some e =>
          if has_class c e then Some i
          else match parent e with
               | None => None
               | Some p => closest_go fuel' c p d
               end
      end
  end.

Definition closest (c : string) (i : nat) (d : Document) : option nat :=
  closest_go (length d) c i d.

(** [a.querySelector('t')] for a tag name [t]: the first descendant of
    [a] with that tag. *)
Definition querySelector_tag_in (a : nat) (t : string) (d : Document)
  : option nat :=
  find_from
    (λ i e, bool_decide (tag e = t) && negb (bool_decide (i = a))
            && contains a i d) 0 d.

(** [refs.forEach(el => f(el))] on a static list of references. *)
Definition forEach (f : Element → Element) (refs : list nat) (d : Document)
  : Document :=
  foldl (λ d' i, alter f i d') d refs.

End Dom.

(** ** The fragment of a URL

    What the browser's URL parser makes of a reference of the form
    [#...] given to [history.replaceState], and what [location.hash]
    then returns. *)

Module Url.

(** C0 controls and space: U+0000 to U+0020. *)
Definition is_c0_or_space (a : ascii) : bool := nat_of_ascii a <=? 32.

(** ASCII tab, line feed and carriage return. *)
Definition is_tab_or_newline (a : ascii) : bool :=
  (nat_of_ascii a =? 9) || (nat_of_ascii a =? 10) || (nat_of_ascii a =? 13).

(** The fragment percent-encode set: the C0 controls, everything above
    [~], and space, the double quote, [<], [>] and the backquote. *)
Definition in_fragment_encode_set (a : ascii) : bool :=
  (nat_of_ascii a <=? 31) || (126 <? nat_of_ascii a)
  || (nat_of_ascii a =? 32) || (nat_of_ascii a =? 34)
  || (nat_of_ascii a =? 60) || (nat_of_ascii a =? 62)
  || (nat_of_ascii a =? 96).

Fixpoint strip_leading (s : string) : string :=
  match s with
  | "" => ""
  | String a s' => if is_c0_or_space a then strip_leading s' else s
  end.

Fixpoint strip_trailing (s : string) : string :=
  match s with
  | "" => ""
  | String a s' =>
      let r := strip_trailing s' in
      if bool_decide (r = "") && is_c0_or_space a then "" else String a r
  end.

Fixpoint remove_tab_newline (s : string) : string :=
  match s with
  | "" => ""
  | String a s' =>
      if is_tab_or_newline a then remove_tab_newline s'
      else String a (remove_tab_newline s')
  end.

Definition hex_digit (n : nat) : ascii :=
  match n with
  | 0 => "0" | 1 => "1" | 2 => "2" | 3 => "3" | 4 => "4" | 5 => "5"
  | 6 => "6" | 7 => "7" | 8 => "8" | 9 => "9" | 10 => "A" | 11 => "B"
  | 12 => "C" | 13 => "D" | 14 => "E" | _ => "F"
  end%char.

Definition percent_encode (a : ascii) : string :=
  String "%" (String (hex_digit (nat_of_ascii a / 16))
                (String (hex_digit (nat_of_ascii a mod 16)) "")).

Fixpoint encode_fragment (s : string) : string :=
  match s with
  | "" => ""
  | String a s' =>
      if in_fragment_encode_set a
      then percent_encode a ++ encode_fragment s'
      else String a (encode_fragment s')
  end.

(** The fragment of a reference: leading and trailing C0 controls and
    spaces go, then every tab and newline, and what follows the [#] is
    percent-encoded.  [None] for a reference that is not of the form
    [#...]. *)
Definition fragment_of (reference : string) : option string :=
  match remove_tab_newline (strip_trailing (strip_leading reference)) with
  | String "#" rest => Some (encode_fragment rest)
  | _ => None
  end.

(** [location.hash]: empty for an empty fragment. *)
Definition hash_of_fragment (f : string) : string :=
  if decide (f = "") then "" else "#" ++ f.

(** What [location.hash] returns once the fragment is that of [#key]. *)
Definition hash_for (key : string) : string :=
  hash_of_fragment
    (encode_fragment (remove_tab_newline (strip_trailing key))).

(** A key the parser takes over as it is: printable ASCII without space,
    double quote, [<], [>] and backquote. *)
Fixpoint plain (s : string) : bool :=
  match s with
  | "" => true
  | String a s' =>
      negb (is_c0_or_space a) && negb (in_fragment_encode_set a) && plain s'
  end.

End Url.

(** ** The page script *)

Module Ui.
Import Dom.

(** What the browser offers, fixed for the life of the page.
    [css_query] is its selector engine on the selectors
    [querySelector_onclick] leaves to it. *)
Inductive ExecResult := ExecTrue | ExecFalse | ExecThrows.

Record Env := mkBrowser {
  has_replaceState : bool;        (* history.replaceState *)
  has_clipboard_api : bool;       (* navigator.clipboard.writeText *)
  writeText_resolves : bool;      (* the promise is fulfilled *)
  execCommand_copy : ExecResult;  (* document.execCommand('copy') *)
  has_IntersectionObserver : bool;
  css_query : string → Document → QueryResult
}.

(** A browser given by its capabilities alone, for pages whose hashes
    and ids hold no special character, where the selector engine is never
    asked. *)
Definition mkEnv (replaceState clipboard_api resolves : bool)
    (exec : ExecResult) (observer : bool) : Env :=
  mkBrowser replaceState clipboard_api resolves exec observer
    (λ _ _, InvalidSelector).

(** A callback given to [setTimeout], with the values it closes over. *)
Inductive Task :=
| RevertFeedback (button : nat) (originalHTML originalClass : string)
| RevertError (button : nat) (originalHTML originalClass : string)
| MarkLoaded.

Inductive LogLevel := LogError | LogWarn | LogInfo.

(** The page.  [location_hash] is what [window.location.hash] returns;
    [timers] holds the pending timeouts, earliest first. *)
Record Page := mkPage {
  elements : Document;
  body_overflow : string;
  body_class : string;
  innerWidth : Z;
  location_hash : string;
  history_length : nat;
  scrollTo_calls : nat;
  console : list (LogLevel * string);
  clipboard : option string;
  clock : nat;
  timers : list (nat * Task)
}.

Definition with_elements (f : Document → Document) (p : Page) : Page :=
  mkPage (f (elements p)) (body_overflow p) (body_class p) (innerWidth p)
    (location_hash p) (history_length p) (scrollTo_calls p) (console p)
    (clipboard p) (clock p) (timers p).

Definition set_body_overflow (v : string) (p : Page) : Page :=
  mkPage (elements p) v (body_class p) (innerWidth p)
    (location_hash p) (history_length p) (scrollTo_calls p) (console p)
    (clipboard p) (clock p) (timers p).

Definition set_body_class (v : string) (p : Page) : Page :=
  mkPage (elements p) (body_overflow p) v (innerWidth p)
    (location_hash p) (history_length p) (scrollTo_calls p) (console p)
    (clipboard p) (clock p) (timers p).

Definition set_innerWidth (w : Z) (p : Page) : Page :=
  mkPage (elements p) (body_overflow p) (body_class p) w
    (location_hash p) (history_length p) (scrollTo_calls p) (console p)
    (clipboard p) (clock p) (timers p).

(** [history.replaceState(null, null, url)] for a reference [url] of the
    form [#...], the only form the script passes: the current entry gets
    the fragment the URL parser makes of it; no entry is added. *)
Definition replaceState (url : string) (p : Page) : Page :=
  match Url.fragment_of url with
  | Some f =>
      mkPage (elements p) (body_overflow p) (body_class p) (innerWidth p)
        (Url.hash_of_fragment f) (history_length p) (scrollTo_calls p)
        (console p) (clipboard p) (clock p) (timers p)
  | None => p
  end.

(** [window.scrollTo({top: 0, behavior: 'smooth'})] *)
Definition scrollTo_top (p : Page) : Page :=
  mkPage (elements p) (body_overflow p) (body_class p) (innerWidth p)
    (location_hash p) (history_length p) (S (scrollTo_calls p)) (console p)
    (clipboard p) (clock p) (timers p).

Definition console_log (l : LogLevel) (msg : string) (p : Page) : Page :=
  mkPage (elements p) (body_overflow p) (body_class p) (innerWidth p)
    (location_hash p) (history_length p) (scrollTo_calls p)
    (console p ++ [(l, msg)]) (clipboard p) (clock p) (timers p).

Definition set_clipboard (text : string) (p : Page) : Page :=
  mkPage (elements p) (body_overflow p) (body_class p) (innerWidth p)
    (location_hash p) (history_length p) (scrollTo_calls p) (console p)
    (Some text) (clock p) (timers p).

Definition set_clock_timers (c : nat) (ts : list (nat * Task)) (p : Page)
  : Page :=
  mkPage (elements p) (body_overflow p) (body_class p) (innerWidth p)
    (location_hash p) (history_length p) (scrollTo_calls p) (console p)
    (clipboard p) c ts.

(** How a listener or a callback ends: it returns, or it throws with the
    page as it is then.  An error nobody catches reaches the [error]
    listener of the window, which logs a warning. *)
Inductive Completion :=
| Returns (p : Page)
| Throws (error : string) (p : Page).

Definition page_of (c : Completion) : Page :=
  match c with
  | Returns p => p
  | Throws _ p => p
  end.

Definition report (c : Completion) : Page :=
  match c with
  | Returns p => p
  | Throws _ p => console_log LogWarn "Proxy UI Docs: An error occurred:" p
  end.

(** A timer goes behind the pending timers that are due no later. *)
Fixpoint insert_timer (t : nat * Task) (ts : list (nat * Task))
  : list (nat * Task) :=
  match ts with
  | [] => [t]
  | u :: ts' =>
      if (fst u <=? fst t)%nat then u :: insert_timer t ts' else t :: u :: ts'
  end.

(** [setTimeout(task, delay)] *)
Definition setTimeout (task : Task) (delay : nat) (p : Page) : Page :=
  set_clock_timers (clock p) (insert_timer (clock p + delay, task) (timers p)) p.

(** *** [showSection]

    The five steps of the function, in the order of its body. *)

(** Hide all content sections. *)
Definition hide_sections (p : Page) : Page :=
  let sections := querySelectorAll_class "content-section" (elements p) in
  with_elements (forEach (classList_remove ["active"]) sections) p.

(** Show the selected section. *)
Definition show_target (sectionId : string) (p : Page) : Page :=
  let targetSection := getElementById sectionId (elements p) in
  match targetSection with
  | Some t =>
      scrollTo_top (with_elements (alter (classList_add ["active"]) t) p)
  | None => p
  end.

(** Update navigation active state. *)
Definition update_nav (element : option nat) (p : Page) : Page :=
  let navItems := querySelectorAll_class "nav-item" (elements p) in
  let p := with_elements (forEach (classList_remove ["active"]) navItems) p in
  match element with
  | Some el => with_elements (alter (classList_add ["active"]) el) p
  | None => p
  end.

(** Close sidebar on mobile after selection. *)
Definition close_sidebar_on_mobile (p : Page) : Page :=
  if (innerWidth p <=? 768)%Z then
    let sidebar := getElementById "sidebar" (elements p) in
    match sidebar with
    | Some sb => with_elements (alter (classList_remove ["open"]) sb) p
    | None => p
    end
  else p.

(** Update URL hash without triggering scroll. *)
Definition update_hash (env : Env) (sectionId : string) (p : Page) : Page :=
  if has_replaceState env then replaceState ("#" ++ sectionId) p else p.

Definition showSection (env : Env) (sectionId : string)
    (element : option nat) (p : Page) : Page :=
  update_hash env sectionId
    (close_sidebar_on_mobile
       (update_nav element (show_target sectionId (hide_sections p)))).

(** *** [toggleSidebar] *)
Definition toggleSidebar (p : Page) : Page :=
  match getElementById "sidebar" (elements p) with
  | Some sb =>
      let p := with_elements (alter (classList_toggle "open") sb) p in
      match elements p !! sb with
      | Some e =>
          if has_class "open" e then set_body_overflow "hidden" p
          else set_body_overflow "" p
      | None => p
      end
  | None => p
  end.

(** *** [showCopyFeedback] and [showCopyError] *)
Definition run_task (t : Task) (p : Page) : Page :=
  match t with
  | RevertFeedback button originalHTML originalClass =>
      with_elements
        (alter (λ e, set_className originalClass (set_innerHTML originalHTML e))
           button) p
  | RevertError button originalHTML originalClass =>
      with_elements
        (alter (λ e, set_style_borderColor ""
                       (set_style_color ""
                          (set_className originalClass
                             (set_innerHTML originalHTML e))))
           button) p
  | MarkLoaded =>
      set_body_class (DomTokenList.add ["loaded"] (body_class p)) p
  end.

Definition check_icon : string := "<i class=" ++ String "034" "fas fa-check"
  ++ String "034" "></i>".

Definition warning_icon : string :=
  "<i class=" ++ String "034" "fas fa-exclamation-triangle"
  ++ String "034" "></i>".

Definition showCopyFeedback (button : nat) (p : Page) : Page :=
  match elements p !! button with
  | Some b =>
      let originalHTML := innerHTML b in
      let originalClass := className b in
      let p :=
        with_elements
          (alter (λ e, classList_add ["copied"; "copying"]
                         (set_innerHTML check_icon e)) button) p in
      setTimeout (RevertFeedback button originalHTML originalClass) 2000 p
  | None => p
  end.

Definition showCopyError (button : nat) (p : Page) : Page :=
  match elements p !! button with
  | Some b =>
      let originalHTML := innerHTML b in
      let originalClass := className b in
      let p :=
        with_elements
          (alter (λ e, set_style_borderColor "#ff6b6b"
                         (set_style_color "#ff6b6b"
                            (set_innerHTML warning_icon e))) button) p in
      setTimeout (RevertError button originalHTML originalClass) 2000 p
  | None => p
  end.

(** *** [copyCode]

    The body of the [try] either completes or throws; the [catch] logs
    and shows the error feedback.  The continuation after [await] is
    taken to run before any other event.  In the fallback the text area
    is appended to the body, as the last element of the page, and taken
    out again after the copy command; when the command throws it stays. *)
Definition fallback_textarea (codeText : string) : Element :=
  mkNode "textarea" "" "" None "" "" "" "" "" None codeText "fixed" "0" "none" "".

Definition copyCode_try (env : Env) (button : nat) (p : Page)
  : Page + Page :=
  match closest "code-container" button (elements p) with
  | None => inr p   (* codeContainer is null: TypeError *)
  | Some codeContainer =>
      match querySelector_tag_in codeContainer "code" (elements p) with
      | None => inl (console_log LogError "Code block not found" p)
      | Some cb =>
          match elements p !! cb with
          | None => inr p
          | Some codeBlock =>
              let codeText :=
                if decide (textContent codeBlock = "")
                then innerText codeBlock else textContent codeBlock in
              if has_clipboard_api env then
                if writeText_resolves env
                then inl (showCopyFeedback button (set_clipboard codeText p))
                else inr p
              else
                match execCommand_copy env with
                | ExecTrue =>
                    inl (showCopyFeedback button (set_clipboard codeText p))
                | ExecFalse => inl (showCopyFeedback button p)
                | ExecThrows =>
                    inr (with_elements
                           (λ d, d ++ [fallback_textarea codeText]) p)
                end
          end
      end
  end.

Definition copyCode (env : Env) (button : nat) (p : Page) : Page :=
  match copyCode_try env button p with
  | inl p' => p'
  | inr p' =>
      showCopyError button (console_log LogError "Failed to copy code:" p')
  end.

(** *** [handleInitialLoad] *)
Definition substring1 (s : string) : string :=
  match s with
  | "" => ""
  | String _ s' => s'
  end.

Definition handleInitialLoad (env : Env) (p : Page) : Completion :=
  let hash := substring1 (location_hash p) in
  if decide (hash = "") then Returns p
  else
    match querySelector_onclick (css_query env) hash (elements p) with
    | Found (Some targetElement) =>
        Returns (showSection env hash (Some targetElement) p)
    | Found None => Returns p
    | InvalidSelector => Throws "SyntaxError" p
    end.

(** *** [handleOutsideClick]

    [target] is [None] when the click lands on a node the store does
    not hold (the body). *)

Definition node_contains (a : nat) (target : option nat) (d : Document)
  : bool :=
  match target with
  | Some t => contains a t d
  | None => false
  end.

Definition handleOutsideClick (target : option nat) (p : Page) : Completion :=
  let sidebar := getElementById "sidebar" (elements p) in
  let toggleButton := querySelector_class "menu-toggle" (elements p) in
  if (innerWidth p <=? 768)%Z then
    match sidebar with
    | None => Returns p
    | Some sb =>
        if node_contains sb target (elements p) then Returns p
        else
          match toggleButton with
          | None => Throws "TypeError" p
          | Some tb =>
              if node_contains tb target (elements p) then Returns p
              else
                match elements p !! sb with
                | Some e =>
                    if has_class "open" e then
                      Returns
                        (set_body_overflow ""
                           (with_elements
                              (alter (classList_remove ["open"]) sb) p))
                    else Returns p
                | None => Returns p
                end
          end
    end
  else Returns p.

(** *** [handleKeyboardNavigation]

    [event.preventDefault()] acts on the event only and is left out. *)
Definition handleKeyboardNavigation (key : string) (altKey : bool)
    (p : Page) : Page :=
  let p :=
    if decide (key = "Escape") then
      match getElementById "sidebar" (elements p) with
      | Some sb =>
          match elements p !! sb with
          | Some e =>
              if has_class "open" e then
                set_body_overflow ""
                  (with_elements (alter (classList_remove ["open"]) sb) p)
              else p
          | None => p
          end
      | None => p
      end
    else p in
  if altKey && (bool_decide (key = "m") || bool_decide (key = "M"))
  then toggleSidebar p else p.

(** *** [handleResize] *)
Definition handleResize (p : Page) : Page :=
  let sidebar := getElementById "sidebar" (elements p) in
  if (768 <? innerWidth p)%Z then
    let p :=
      match sidebar with
      | Some sb => with_elements (alter (classList_remove ["open"]) sb) p
      | None => p
      end in
    set_body_overflow "" p
  else p.

(** *** [initScrollSpy]

    The observer keeps the node lists taken when it was set up. *)
Record ScrollSpy := mkScrollSpy {
  spy_sections : list nat;
  spy_navItems : list nat
}.

Definition initScrollSpy (p : Page) : ScrollSpy :=
  mkScrollSpy (querySelectorAll_class "content-section" (elements p))
              (querySelectorAll_class "nav-item" (elements p)).

Record Entry := mkEntry {
  isIntersecting : bool;
  intersectionRatio : Q;
  target : nat
}.

(** [entry.isIntersecting && entry.intersectionRatio > 0.5] *)
Definition entry_selected (e : Entry) : bool :=
  isIntersecting e && negb (Qle_bool (intersectionRatio e) (1 # 2)).

(** One turn of the callback's loop.  A selector the browser cannot
    parse makes [querySelector] throw, and the callback ends there. *)
Definition scrollSpy_entry (env : Env) (spy : ScrollSpy) (e : Entry)
    (p : Page) : Completion :=
  if entry_selected e then
    match elements p !! target e with
    | Some sec =>
        let sectionId := id sec in
        match querySelector_onclick (css_query env) sectionId (elements p) with
        | Found (Some correspondingNav) =>
            let p :=
              with_elements
                (forEach (classList_remove ["active"]) (spy_navItems spy)) p in
            let p :=
              with_elements
                (alter (classList_add ["active"]) correspondingNav) p in
            Returns (if has_replaceState env
                     then replaceState ("#" ++ sectionId) p else p)
        | Found None => Returns p
        | InvalidSelector => Throws "SyntaxError" p
        end
    | None => Returns p
    end
  else Returns p.

Fixpoint scrollSpy_forEach (env : Env) (spy : ScrollSpy)
    (entries : list Entry) (p : Page) : Completion :=
  match entries with
  | [] => Returns p
  | e :: entries' =>
      match scrollSpy_entry env spy e p with
      | Returns p' => scrollSpy_forEach env spy entries' p'
      | Throws error p' => Throws error p'
      end
  end.

(** The page after the observer has called back with [entries]. *)
Definition scrollSpy_callback (env : Env) (spy : ScrollSpy)
    (entries : list Entry) (p : Page) : Page :=
  report (scrollSpy_forEach env spy entries p).

(** The observer's options: [threshold: [0.5]] and
    [rootMargin: '-20% 0px -70% 0px'].  The root is the viewport, [vh]
    pixels high, shrunk at the top by 20% of [vh] and at the bottom by
    70% of [vh], each cut to whole pixels.  [observe] is the entry
    reported for a target whose box spans [top, top + height] (viewport
    coordinates) and lies inside the viewport horizontally, with the
    ratio of the target inside the shrunk root taken exactly; the browser
    delivers an entry when the ratio crosses the threshold. *)
Definition threshold : Q := 1 # 2.
Definition rootMargin_top : Z := 20.
Definition rootMargin_bottom : Z := 70.

Definition root_top (vh : Z) : Q :=
  inject_Z (Z.quot (vh * rootMargin_top) 100).
Definition root_bottom (vh : Z) : Q :=
  inject_Z (vh - Z.quot (vh * rootMargin_bottom) 100).

Definition overlap (lo hi top bottom : Q) : Q :=
  Qmax 0 (Qmin hi bottom - Qmax lo top)%Q.

Definition observe (vh : Z) (top height : Q) (target : nat) : Entry :=
  let lo := root_top vh in
  let hi := root_bottom vh in
  let bottom := (top + height)%Q in
  let touching := Qle_bool (Qmax lo top) (Qmin hi bottom) in
  let ratio :=
    if Qle_bool height 0 then (if touching then 1 else 0)%Q
    else (overlap lo hi top bottom / height)%Q in
  mkEntry touching ratio target.

(** *** [initAnimationObserver]

    The observer watches the elements with class [feature], [param] or
    [code-container].  Each entry comes with the text the callback makes
    of its random draw, [Math.random() * 0.5] followed by [s]. *)
Definition initAnimationObserver (p : Page) : list nat :=
  all_from
    (λ e, has_class "feature" e || has_class "param" e
          || has_class "code-container" e) 0 (elements p).

Record Appearance := mkAppearance {
  appears : bool;          (* entry.isIntersecting *)
  appearing : nat;         (* entry.target *)
  drawn_delay : string
}.

Definition animation_entry (a : Appearance) (p : Page) : Page :=
  if appears a then
    with_elements
      (alter (λ e, classList_add ["animate-in"]
                     (set_style_animationDelay (drawn_delay a) e))
         (appearing a)) p
  else p.

Definition animation_callback (entries : list Appearance) (p : Page) : Page :=
  foldl (λ p' a, animation_entry a p') p entries.

(** *** [handleResize] after the viewport takes width [w] *)
Definition resize_to (w : Z) (p : Page) : Page :=
  handleResize (set_innerWidth w p).

(** *** Timers: [ms] milliseconds pass and the timeouts due run, earliest
    first. *)
Definition elapse (ms : nat) (p : Page) : Page :=
  let now := clock p + ms in
  let due := filter (λ t, (fst t ≤ now)%nat) (timers p) in
  let rest := filter (λ t, ¬ (fst t ≤ now)%nat) (timers p) in
  foldl (λ p' t, run_task (snd t) p') (set_clock_timers now rest p) due.

(** *** The [DOMContentLoaded] listener

    The initial load, the two observers where the browser has
    intersection observers, and the timeout that marks the body as
    loaded.  When the initial load throws, the listener ends there:
    nothing after it is set up.  The listeners the page installs are the
    events below.  The click listeners of [initSmoothScrolling] scroll
    the viewport, or throw on a reference that is no selector; they write
    nothing of the page kept here but the console and are left out. *)
Definition loaded_message : string :=
  "ðŸš€ Proxy UI Documentation loaded successfully!".

Record Observers := mkObservers {
  scrollSpy : ScrollSpy;
  animated : list nat
}.

Definition onDOMContentLoaded (env : Env) (p : Page)
  : Completion * option Observers :=
  match handleInitialLoad env p with
  | Throws error p' => (Throws error p', None)
  | Returns p' =>
      let observers :=
        if has_IntersectionObserver env
        then Some (mkObservers (initScrollSpy p') (initAnimationObserver p'))
        else None in
      let p' := setTimeout MarkLoaded 100 p' in
      (Returns (console_log LogInfo loaded_message p'), observers)
  end.

(** What the observers deliver once the page is loaded. *)
Inductive Delivery :=
| SpyEntries (entries : list Entry)
| AnimationEntries (entries : list Appearance).

Definition deliver (env : Env) (obs : Observers) (d : Delivery) (p : Page)
  : Page :=
  match d with
  | SpyEntries entries => scrollSpy_callback env (scrollSpy obs) entries p
  | AnimationEntries entries => animation_callback entries p
  end.

(** The deliveries [ds], in order, from the observers the listener set
    up, if it set up any. *)
Definition deliver_all (env : Env) (obs : option Observers)
    (ds : list Delivery) (p : Page) : Page :=
  match obs with
  | Some o => foldl (λ p' d, deliver env o d p') p ds
  | None => p
  end.

(** *** The events that move the sidebar

    The listeners the page installs and the two exported functions, as
    one step of the page. *)
Inductive Event :=
| Toggle
| Click (target : option nat)
| KeyDown (key : string) (altKey : bool)
| Resize (width : Z)
| Select (sectionId : string) (element : option nat).

Definition dispatch (env : Env) (ev : Event) (p : Page) : Page :=
  match ev with
  | Toggle => toggleSidebar p
  | Click target => report (handleOutsideClick target p)
  | KeyDown key altKey => handleKeyboardNavigation key altKey p
  | Resize width => resize_to width p
  | Select sectionId element => showSection env sectionId element p
  end.

Definition run (env : Env) (evs : list Event) (p : Page) : Page :=
  foldl (λ p' ev, dispatch env ev p') p evs.

Definition is_select (ev : Event) : bool :=
  match ev with
  | Select _ _ => true
  | _ => false
  end.

(** *** Observations *)
Definition is_active (i : nat) (p : Page) : bool :=
  from_option (has_class "active") false (elements p !! i).

Definition is_section (i : nat) (p : Page) : bool :=
  from_option (has_class "content-section") false (elements p !! i).

Definition is_navItem (i : nat) (p : Page) : bool :=
  from_option (has_class "nav-item") false (elements p !! i).

Definition sidebar_open (p : Page) : bool :=
  match getElementById "sidebar" (elements p) with
  | Some sb => from_option (has_class "open") false (elements p !! sb)
  | None => false
  end.

Definition scroll_locked (p : Page) : bool :=
  bool_decide (body_overflow p = "hidden").

(** The sidebar is open exactly when the background scroll is locked. *)
Definition synchronized (p : Page) : Prop :=
  sidebar_open p = scroll_locked p.

(** The element-wise reading of the two loops of [showSection] and of an
    update through a reference that may be absent. *)
Definition deactivate_if (c : string) (e : Element) : Element :=
  if has_class c e then classList_remove ["active"] e else e.

Definition alter_at (f : Element → Element) (r : option nat) (d : Document)
  : Document :=
  match r with
  | Some i => alter f i d
  | None => d
  end.

(** What [showSection] does to the element at position [j], given the
    results of its three lookups. *)
Definition showSection_at (target element sidebar : option nat)
    (narrow : bool) (j : nat) (e : Element) : Element :=
  let e1 := deactivate_if "content-section" e in
  let e2 :=
    if decide (target = Some j) then classList_add ["active"] e1 else e1 in
  let e3 := deactivate_if "nav-item" e2 in
  let e4 :=
    if decide (element = Some j) then classList_add ["active"] e3 else e3 in
  if narrow && bool_decide (sidebar = Some j)
  then classList_remove ["open"] e4 else e4.

(** The control while the success feedback shows, while the error
    feedback shows, and with the two inline colours the error path
    writes emptied. *)
Definition feedback_shown (e : Element) : Element :=
  classList_add ["copied"; "copying"] (set_innerHTML check_icon e).

Definition error_shown (e : Element) : Element :=
  set_style_borderColor "#ff6b6b"
    (set_style_color "#ff6b6b" (set_innerHTML warning_icon e)).

Definition style_cleared (e : Element) : Element :=
  set_style_borderColor "" (set_style_color "" e).

(** The text [copyCode] takes from a code block, and how its copy step
    ends in a given browser: [copy_lands] when the text reaches the
    clipboard, [copy_throws] when the step throws (a rejected write, a
    throwing [execCommand]); with [execCommand] returning false it does
    neither. *)
Definition code_text (codeBlock : Element) : string :=
  if decide (textContent codeBlock = "") then innerText codeBlock
  else textContent codeBlock.

Definition copy_lands (env : Env) : bool :=
  if has_clipboard_api env then writeText_resolves env
  else match execCommand_copy env with
       | ExecTrue => true
       | _ => false
       end.

Definition copy_throws (env : Env) : bool :=
  if has_clipboard_api env then negb (writeText_resolves env)
  else match execCommand_copy env with
       | ExecThrows => true
       | _ => false
       end.

(** What the copy step leaves behind in the page: the text area of the
    fallback when [execCommand] throws, nothing otherwise. *)
Definition copy_leak (env : Env) (codeText : string) : list Element :=
  if has_clipboard_api env then []
  else match execCommand_copy env with
       | ExecThrows => [fallback_textarea codeText]
       | _ => []
       end.

End Ui.

(** ** The scroll-spy policy in the words of the specification *)

Module SpecWords.
Import Ui.



End SpecWords.

(** ** A sample page

    Three sections with their navigation items, a sidebar with its toggle
    control, a code container with a copy button, and a copy button that
    sits outside any code container. *)

Module Sample.
Import Dom Ui.

Definition el (tg i cls : string) (oc : option string) (par : option nat)
  : Element :=
  mkElement tg i cls oc "" "" "" "" "" par.

Definition copy_icon : string :=
  "<i class=" ++ String "034" "fas fa-copy" ++ String "034" "></i>".

Definition button (cls : string) (par : option nat) : Element :=
  mkElement "button" "" cls (Some "copyCode(this)") copy_icon "" "" "" "" par.

Definition doc : Document :=
  [ el "nav" "sidebar" "sidebar" None None;
    el "a" "" "nav-item active" (Some "showSection('intro', this)") (Some 0);
    el "a" "" "nav-item" (Some "showSection('api', this)") (Some 0);
    el "a" "" "nav-item" (Some "showSection('faq', this)") (Some 0);
    el "button" "" "menu-toggle" (Some "toggleSidebar()") None;
    el "section" "intro" "content-section active" None None;
    el "section" "api" "content-section" None None;
    el "div" "" "code-container" None (Some 6);
    mkElement "code" "" "" None "npm install" "npm install" "npm install"
      "" "" (Some 7);
    button "copy-btn" (Some 7);
    el "section" "faq" "content-section" None None;
    button "copy-btn" (Some 10) ].

Definition page (width : Z) (hash : string) : Page :=
  mkPage doc "" "" width hash 1 0 [] None 0 [].

Definition env : Env := mkEnv true true true ExecTrue true.

(** The clipboard write is rejected. *)
Definition no_clipboard : Env := mkEnv true true false ExecTrue true.




(** The page without its toggle control. *)
Definition page_without_toggle (width : Z) : Page :=
  with_elements (alter (set_className "") 4) (page width "").

End Sample.

Example parse_ex :
  DomTokenList.parse "  nav-item   active nav-item " = ["nav-item"; "active"].
Proof. vm_compute. reflexivity. Qed.

Example add_ex :
  DomTokenList.add ["copied"; "copying"] "copy-btn  copied" = "copy-btn copied copying".
Proof. vm_compute. reflexivity. Qed.

Example remove_ex :
  DomTokenList.remove ["active"] "a active  b" = "a b".
Proof. vm_compute. reflexivity. Qed.

Import Dom Ui.

(** * Facts about the token list *)

Section TokenListFacts.
Import DomTokenList.

Lemma append_cons a s t : (String a s ++ t = String a (s ++ t))%string.
Proof. reflexivity. Qed.

Lemma is_token_nonempty t : is_token t = true → t ≠ "".
Proof.
  unfold is_token. intros H ->. discriminate H.
Qed.

Lemma is_token_no_whitespace t : is_token t = true → no_whitespace t = true.
Proof.
  unfold is_token. intros [_ H]%andb_true_iff. exact H.
Qed.

Lemma split_go_token_app t s :
  no_whitespace t = true →
  split_go (t ++ s)%string = ((t ++ fst (split_go s))%string, snd (split_go s)).
Proof.
  induction t as [|a t IH]; intros Hnw.
  - change (split_go s = (fst (split_go s), snd (split_go s))).
    by destruct (split_go s).
  - cbn [no_whitespace] in Hnw. apply andb_true_iff in Hnw as [Ha Ht].
    rewrite append_cons. cbn [split_go]. rewrite (IH Ht).
    apply negb_true_iff in Ha. rewrite Ha. by rewrite append_cons.
Qed.

Lemma split_go_token t :
  no_whitespace t = true → split_go t = (t, []).
Proof.
  induction t as [|a t IH]; intros Hnw; [done|].
  cbn [no_whitespace] in Hnw. apply andb_true_iff in Hnw as [Ha Ht].
  cbn [split_go]. rewrite (IH Ht). apply negb_true_iff in Ha. by rewrite Ha.
Qed.

Lemma app_empty_r (s : string) : (s ++ "")%string = s.
Proof. induction s as [|a s IH]; [done|]. by rewrite append_cons, IH. Qed.

Lemma split_serialize l :
  Forall (λ t, is_token t = true) l → split_on_whitespace (serialize l) = l.
Proof.
  induction 1 as [|t l Ht Hl IH]; [done|].
  pose proof (is_token_nonempty _ Ht) as Hne.
  pose proof (is_token_no_whitespace _ Ht) as Hnw.
  destruct l as [|u l].
  - simpl. unfold split_on_whitespace. rewrite (split_go_token _ Hnw).
    unfold cons_token. by rewrite decide_False.
  - change (serialize (t :: u :: l)) with (t ++ String " " (serialize (u :: l)))%string.
    unfold split_on_whitespace in *.
    rewrite (split_go_token_app _ _ Hnw).
    cbn [split_go is_ascii_whitespace].
    destruct (split_go (serialize (u :: l))) as [w ws] eqn:E.
    cbn [fst snd]. rewrite app_empty_r.
    unfold cons_token at 1. rewrite decide_False by done.
    by rewrite IH.
Qed.

Lemma foldl_set_append_fresh acc l :
  NoDup (acc ++ l) → foldl set_append acc l = acc ++ l.
Proof.
  revert acc. induction l as [|t l IH]; intros acc Hnd.
  - by rewrite app_nil_r.
  - simpl. unfold set_append at 2.
    apply NoDup_app in Hnd as Hnd'. destruct Hnd' as (_ & Hdis & _).
    rewrite decide_False by (intros Hin; apply (Hdis _ Hin); left).
    rewrite IH; rewrite <- app_assoc; done.
Qed.

Lemma parse_serialize l : tokens_ok l → parse (serialize l) = l.
Proof.
  intros [Hall Hnd]. unfold parse. rewrite split_serialize by done.
  by apply (foldl_set_append_fresh []).
Qed.

Lemma split_go_ok s :
  no_whitespace (fst (split_go s)) = true ∧
  Forall (λ t, is_token t = true) (snd (split_go s)).
Proof.
  induction s as [|a s [IH1 IH2]]; [by split|].
  cbn [split_go]. destruct (split_go s) as [w ws]. cbn [fst snd] in *.
  destruct (is_ascii_whitespace a) eqn:Ha; cbn [fst snd no_whitespace].
  - split; [done|]. unfold cons_token. case_decide; [done|].
    constructor; [|done]. unfold is_token.
    rewrite bool_decide_eq_false_2 by done. done.
  - by rewrite Ha, IH1.
Qed.

Lemma split_on_whitespace_ok s :
  Forall (λ t, is_token t = true) (split_on_whitespace s).
Proof.
  unfold split_on_whitespace. pose proof (split_go_ok s) as [H1 H2].
  destruct (split_go s) as [w ws]. simpl in *.
  unfold cons_token. case_decide; [done|].
  constructor; [|done]. unfold is_token.
  by rewrite bool_decide_eq_false_2.
Qed.

Lemma foldl_set_append_ok acc l :
  tokens_ok acc → Forall (λ t, is_token t = true) l →
  tokens_ok (foldl set_append acc l).
Proof.
  revert acc. induction l as [|t l IH]; intros acc Hacc Hl; [done|].
  inversion Hl as [|?? Ht Hl']; subst. simpl. apply IH; [|done].
  unfold set_append. case_decide; [done|].
  destruct Hacc as [Ha Hnd]. split.
  - apply Forall_app. split; [done|]. by constructor.
  - apply NoDup_app. split_and!; [done| |apply NoDup_singleton].
    intros x Hx ->%list_elem_of_singleton. done.
Qed.

Lemma elem_of_foldl_set_append x acc l :
  x ∈ foldl set_append acc l ↔ x ∈ acc ∨ x ∈ l.
Proof.
  revert acc. induction l as [|t l IH]; intros acc; simpl.
  - rewrite elem_of_nil. tauto.
  - rewrite IH, elem_of_cons. unfold set_append. case_decide.
    + split; [tauto|]. intros [?|[->|?]]; tauto.
    + rewrite elem_of_app, list_elem_of_singleton. tauto.
Qed.

Lemma parse_ok s : tokens_ok (parse s).
Proof.
  unfold parse. apply foldl_set_append_ok.
  - split; [constructor|apply NoDup_nil_2].
  - apply split_on_whitespace_ok.
Qed.

Lemma parse_add ts c :
  Forall (λ t, is_token t = true) ts →
  parse (add ts c) = foldl set_append (parse c) ts.
Proof.
  intros Hts. unfold add. apply parse_serialize.
  apply foldl_set_append_ok; [apply parse_ok|done].
Qed.

Lemma parse_remove ts c :
  parse (remove ts c) = filter (λ t, t ∉ ts) (parse c).
Proof.
  unfold remove. apply parse_serialize.
  destruct (parse_ok c) as [Hall Hnd]. split.
  - rewrite Forall_forall in Hall |- *.
    intros x [_ Hx]%list_elem_of_filter. by apply Hall.
  - by apply NoDup_filter.
Qed.

Lemma contains_add t ts c :
  Forall (λ t, is_token t = true) ts →
  contains t (add ts c) = contains t c || bool_decide (t ∈ ts).
Proof.
  intros Hts. unfold contains. rewrite parse_add by done.
  apply eq_true_iff_eq.
  rewrite orb_true_iff, !bool_decide_eq_true.
  apply elem_of_foldl_set_append.
Qed.

Lemma contains_remove t ts c :
  contains t (remove ts c) = contains t c && negb (bool_decide (t ∈ ts)).
Proof.
  unfold contains. rewrite parse_remove.
  apply eq_true_iff_eq.
  rewrite andb_true_iff, negb_true_iff, bool_decide_eq_false,
    !bool_decide_eq_true, list_elem_of_filter. tauto.
Qed.

Lemma contains_toggle t c :
  is_token t = true → contains t (toggle t c) = negb (contains t c).
Proof.
  intros Ht. unfold toggle. destruct (contains t c) eqn:E.
  - rewrite contains_remove, E. simpl.
    rewrite bool_decide_eq_true_2; [done|]. by left.
  - rewrite contains_add by (by constructor). rewrite E. simpl.
    apply bool_decide_eq_true_2. by left.
Qed.

End TokenListFacts.

(** * Facts about the document store *)

Section DomFacts.
Import Dom.

Lemma find_from_ext (P Q : nat → Element → bool) i d :
  (∀ j e, P j e = Q j e) → find_from P i d = find_from Q i d.
Proof.
  intros HPQ. revert i. induction d as [|e d IH]; intros i; [done|].
  simpl. rewrite HPQ. by rewrite IH.
Qed.

Lemma find_from_fmap (P : nat → Element → bool) g i d :
  find_from P i (g <$> d) = find_from (λ j e, P j (g e)) i d.
Proof.
  revert i. induction d as [|e d IH]; intros i; [done|].
  cbn [fmap list_fmap find_from]. by rewrite <- IH.
Qed.

Lemma find_from_alter (P : nat → Element → bool) f t i d :
  (∀ j e, P j (f e) = P j e) →
  find_from P i (alter f t d) = find_from P i d.
Proof.
  intros Hinv. revert i t. induction d as [|e d IH]; intros i t; [done|].
  destruct t as [|t]; cbn [alter list_alter find_from].
  - by rewrite Hinv.
  - by rewrite IH.
Qed.

Lemma find_from_Some (P : nat → Element → bool) i d j :
  find_from P i d = Some j →
  i ≤ j ∧ (∃ e, d !! (j - i) = Some e ∧ P j e = true) ∧
  ∀ k e, k < j - i → d !! k = Some e → P (i + k) e = false.
Proof.
  revert i. induction d as [|e d IH]; intros i; [done|].
  cbn [find_from]. destruct (P i e) eqn:HP.
  - intros [= <-]. split; [lia|]. replace (i - i) with 0 by lia.
    split; [by exists e|]. intros k e' Hk. lia.
  - intros H. apply IH in H as (Hle & (e' & He' & HPe') & Hbefore).
    split; [lia|]. split.
    + exists e'. split; [|done].
      replace (j - i) with (S (j - S i)) by lia. done.
    + intros k e'' Hk Hlook. destruct k as [|k].
      * simpl in Hlook. injection Hlook as <-.
        by replace (i + 0) with i by lia.
      * simpl in Hlook. replace (i + S k) with (S i + k) by lia.
        apply Hbefore; [lia|done].
Qed.

Lemma find_from_None (P : nat → Element → bool) i d :
  find_from P i d = None ↔ ∀ k e, d !! k = Some e → P (i + k) e = false.
Proof.
  revert i. induction d as [|e d IH]; intros i.
  - split; [|done]. intros _ k e. by rewrite lookup_nil.
  - cbn [find_from]. destruct (P i e) eqn:HP.
    + split; [done|]. intros H. specialize (H 0 e eq_refl).
      replace (i + 0) with i in H by lia. congruence.
    + rewrite IH. split.
      * intros H [|k] e' Hlook; simpl in Hlook.
        -- injection Hlook as <-. by replace (i + 0) with i by lia.
        -- replace (i + S k) with (S i + k) by lia. by apply H.
      * intros H k e' Hlook. replace (S i + k) with (i + S k) by lia.
        by apply H.
Qed.

Lemma all_from_fmap (P : Element → bool) g i d :
  (∀ e, P (g e) = P e) → all_from P i (g <$> d) = all_from P i d.
Proof.
  intros Hinv. revert i. induction d as [|e d IH]; intros i; [done|].
  cbn [fmap list_fmap all_from]. rewrite Hinv.
  by rewrite <- IH.
Qed.

Lemma all_from_alter (P : Element → bool) f t i d :
  (∀ e, P (f e) = P e) → all_from P i (alter f t d) = all_from P i d.
Proof.
  intros Hinv. revert i t. induction d as [|e d IH]; intros i t; [done|].
  destruct t as [|t]; cbn [alter list_alter all_from].
  - by rewrite Hinv.
  - by rewrite IH.
Qed.

Lemma elem_of_all_from (P : Element → bool) i d j :
  j ∈ all_from P i d ↔ i ≤ j ∧ ∃ e, d !! (j - i) = Some e ∧ P e = true.
Proof.
  revert i. induction d as [|e d IH]; intros i.
  - simpl. rewrite elem_of_nil. split; [done|]. intros (_ & e & He & _).
    by rewrite lookup_nil in He.
  - assert (j ∈ all_from P (S i) d ↔
            i < j ∧ ∃ e', (e :: d) !! (j - i) = Some e' ∧ P e' = true) as Htl.
    { rewrite IH. split.
      - intros (Hle & e' & He' & HP). split; [lia|]. exists e'.
        split; [|done]. replace (j - i) with (S (j - S i)) by lia. done.
      - intros (Hlt & e' & He' & HP). split; [lia|]. exists e'.
        split; [|done]. replace (j - i) with (S (j - S i)) in He' by lia.
        done. }
    cbn [all_from]. destruct (P e) eqn:HP.
    + rewrite elem_of_cons, Htl. split.
      * intros [->|(Hlt & He)]; [|split; [lia|done]].
        split; [lia|]. exists e. by replace (i - i) with 0 by lia.
      * intros (Hle & e' & He' & HP').
        destruct (decide (j = i)) as [->|Hne]; [by left|right].
        split; [lia|]. by exists e'.
    + rewrite Htl. split.
      * intros (Hlt & He). split; [lia|done].
      * intros (Hle & e' & He' & HP').
        destruct (decide (j = i)) as [->|Hne].
        -- replace (i - i) with 0 in He' by lia. simpl in He'.
           injection He' as <-. congruence.
        -- split; [lia|]. by exists e'.
Qed.

(** A [forEach] over the nodes a class selector returned touches
    exactly the elements with that class. *)
Lemma forEach_all_from_app (P : Element → bool) f pre d :
  forEach f (all_from P (length pre) d) (pre ++ d)
  = pre ++ ((λ e, if P e then f e else e) <$> d).
Proof.
  revert pre. induction d as [|e d IH]; intros pre; [done|].
  cbn [all_from fmap list_fmap].
  assert (∀ x, pre ++ x :: d = (pre ++ [x]) ++ d) as Hsplit
    by (intros x; by rewrite <- app_assoc).
  assert (S (length pre) = length (pre ++ [e])) as Hlen
    by (rewrite length_app; simpl; lia).
  destruct (P e) eqn:HP.
  - unfold forEach in *. cbn [foldl].
    replace (alter f (length pre) (pre ++ e :: d)) with ((pre ++ [f e]) ++ d).
    + replace (S (length pre)) with (length (pre ++ [f e]))
        by (rewrite length_app; simpl; lia).
      rewrite IH. by rewrite <- app_assoc.
    + rewrite <- app_assoc. simpl.
      rewrite alter_app_r_alt by lia.
      by replace (length pre - length pre) with 0 by lia.
  - rewrite Hlen, Hsplit, IH. by rewrite <- app_assoc.
Qed.

Lemma forEach_all_from (P : Element → bool) f d :
  forEach f (all_from P 0 d) d = (λ e, if P e then f e else e) <$> d.
Proof. apply (forEach_all_from_app P f []). Qed.

(** The classes an update of [active] or [open] leaves alone. *)
Lemma has_class_add c ts e :
  Forall (λ t, DomTokenList.is_token t = true) ts →
  has_class c (classList_add ts e) = has_class c e || bool_decide (c ∈ ts).
Proof. intros Hts. unfold has_class, classList_add. simpl. by apply contains_add. Qed.

Lemma has_class_remove c ts e :
  has_class c (classList_remove ts e)
  = has_class c e && negb (bool_decide (c ∈ ts)).
Proof. unfold has_class, classList_remove. simpl. apply contains_remove. Qed.

Lemma has_class_toggle c e :
  DomTokenList.is_token c = true →
  has_class c (classList_toggle c e) = negb (has_class c e).
Proof. intros Hc. unfold has_class, classList_toggle. simpl. by apply contains_toggle. Qed.

Lemma getElementById_fmap i g d :
  (∀ e, id (g e) = id e) → getElementById i (g <$> d) = getElementById i d.
Proof.
  intros Hid. unfold getElementById. case_decide; [done|].
  rewrite find_from_fmap. apply find_from_ext. intros _ e. by rewrite Hid.
Qed.

Lemma getElementById_alter i f t d :
  (∀ e, id (f e) = id e) →
  getElementById i (alter f t d) = getElementById i d.
Proof.
  intros Hid. unfold getElementById. case_decide; [done|].
  apply find_from_alter. intros _ e. by rewrite Hid.
Qed.

Lemma getElementById_Some i d j :
  getElementById i d = Some j → ∃ e, d !! j = Some e ∧ id e = i.
Proof.
  unfold getElementById. case_decide; [done|].
  intros (_ & (e & He & HP) & _)%find_from_Some.
  exists e. replace (j - 0) with j in He by lia. split; [done|].
  by apply bool_decide_eq_true in HP.
Qed.

End DomFacts.

(** * Facts about URL fragments *)

Section UrlFacts.
Import Url.

Lemma strip_trailing_hash key :
  strip_trailing (String "#" key) = String "#" (strip_trailing key).
Proof.
  cbn [strip_trailing].
  replace (is_c0_or_space "#") with false by reflexivity.
  by rewrite andb_false_r.
Qed.

Lemma fragment_of_hash key :
  fragment_of ("#" +:+ key)
  = Some (encode_fragment (remove_tab_newline (strip_trailing key))).
Proof.
  unfold fragment_of.
  change ("#" +:+ key) with (String "#" key).
  change (strip_leading (String "#" key)) with (String "#" key).
  by rewrite strip_trailing_hash.
Qed.

Lemma plain_cons a s :
  plain (String a s) = true →
  is_c0_or_space a = false ∧ in_fragment_encode_set a = false ∧
  is_tab_or_newline a = false ∧ plain s = true.
Proof.
  cbn [plain]. intros [[Hc He]%andb_true_iff Hs]%andb_true_iff.
  apply negb_true_iff in Hc, He. split_and!; try done.
  unfold is_c0_or_space, is_tab_or_newline in *.
  apply Nat.leb_gt in Hc.
  rewrite !orb_false_iff, !Nat.eqb_neq. lia.
Qed.

Lemma strip_trailing_plain s : plain s = true → strip_trailing s = s.
Proof.
  induction s as [|a s IH]; [done|]. intros (Hc & _ & _ & Hs)%plain_cons.
  cbn [strip_trailing]. by rewrite Hc, andb_false_r, IH.
Qed.

Lemma remove_tab_newline_plain s : plain s = true → remove_tab_newline s = s.
Proof.
  induction s as [|a s IH]; [done|]. intros (_ & _ & Ht & Hs)%plain_cons.
  cbn [remove_tab_newline]. by rewrite Ht, IH.
Qed.

Lemma encode_fragment_plain s : plain s = true → encode_fragment s = s.
Proof.
  induction s as [|a s IH]; [done|]. intros (_ & He & _ & Hs)%plain_cons.
  cbn [encode_fragment]. by rewrite He, IH.
Qed.

(** A plain key comes back from the parser as it went in. *)
Lemma hash_for_plain key :
  plain key = true → key ≠ "" → hash_for key = "#" +:+ key.
Proof.
  intros Hp Hne. unfold hash_for, hash_of_fragment.
  rewrite strip_trailing_plain, remove_tab_newline_plain,
    encode_fragment_plain by done.
  by rewrite decide_False.
Qed.

Lemma substring1_hash_for_plain key :
  plain key = true → Ui.substring1 (hash_for key) = key.
Proof.
  intros Hp. destruct (decide (key = "")) as [->|Hne]; [done|].
  by rewrite hash_for_plain.
Qed.

End UrlFacts.

(** * Facts about the page script *)

Section UiFacts.
Import Dom Ui.

Lemma active_is_token : Forall (λ t, DomTokenList.is_token t = true) ["active"].
Proof. by repeat constructor. Qed.

Lemma lookup_alter_at (f : Element → Element) r (d : Document) j :
  alter_at f r d !! j
  = (if decide (r = Some j) then f else λ e, e) <$> d !! j.
Proof.
  destruct r as [i|]; simpl.
  - case_decide as H.
    + injection H as ->. by rewrite list_lookup_alter_eq.
    + rewrite list_lookup_alter_ne by congruence. by destruct (d !! j).
  - by destruct (d !! j).
Qed.

Lemma hide_sections_elements p :
  elements (hide_sections p) = deactivate_if "content-section" <$> elements p.
Proof.
  unfold hide_sections, querySelectorAll_class. simpl.
  apply forEach_all_from.
Qed.

Lemma show_target_elements s p :
  elements (show_target s p)
  = alter_at (classList_add ["active"]) (getElementById s (elements p))
      (elements p).
Proof. unfold show_target. by destruct (getElementById s (elements p)). Qed.

Lemma update_nav_elements el p :
  elements (update_nav el p)
  = alter_at (classList_add ["active"]) el
      (deactivate_if "nav-item" <$> elements p).
Proof.
  unfold update_nav, querySelectorAll_class.
  destruct el; simpl; by rewrite forEach_all_from.
Qed.

Lemma close_sidebar_on_mobile_elements p :
  elements (close_sidebar_on_mobile p)
  = if (innerWidth p <=? 768)%Z
    then alter_at (classList_remove ["open"])
           (getElementById "sidebar" (elements p)) (elements p)
    else elements p.
Proof.
  unfold close_sidebar_on_mobile. destruct (innerWidth p <=? 768)%Z; [|done].
  by destruct (getElementById "sidebar" (elements p)).
Qed.

Lemma replaceState_hash key p :
  replaceState ("#" +:+ key) p
  = mkPage (elements p) (body_overflow p) (body_class p) (innerWidth p)
      (Url.hash_for key) (history_length p) (scrollTo_calls p) (console p)
      (clipboard p) (clock p) (timers p).
Proof. unfold replaceState. by rewrite fragment_of_hash. Qed.

Lemma update_hash_elements env s p :
  elements (update_hash env s p) = elements p.
Proof.
  unfold update_hash. rewrite replaceState_hash.
  by destruct (has_replaceState env).
Qed.

Lemma innerWidth_before_close s el p :
  innerWidth (update_nav el (show_target s (hide_sections p))) = innerWidth p.
Proof.
  unfold update_nav, show_target, hide_sections.
  destruct el; simpl;
    by destruct (getElementById s _).
Qed.

Lemma id_deactivate_if c e : id (deactivate_if c e) = id e.
Proof. unfold deactivate_if. by destruct (has_class c e). Qed.

Lemma showSection_lookup env s el p j :
  elements (showSection env s el p) !! j
  = showSection_at (getElementById s (elements p)) el
      (getElementById "sidebar" (elements p)) (innerWidth p <=? 768)%Z j
    <$> elements p !! j.
Proof.
  unfold showSection.
  rewrite update_hash_elements, close_sidebar_on_mobile_elements.
  rewrite innerWidth_before_close.
  rewrite update_nav_elements, show_target_elements, !hide_sections_elements.
  rewrite (getElementById_fmap s) by apply id_deactivate_if.
  set (d := elements p).
  assert (getElementById "sidebar"
            (alter_at (classList_add ["active"]) el
               (deactivate_if "nav-item" <$>
                  alter_at (classList_add ["active"]) (getElementById s d)
                    (deactivate_if "content-section" <$> d)))
          = getElementById "sidebar" d) as ->.
  { destruct el as [n|], (getElementById s d) as [t|]; simpl;
      rewrite ?getElementById_alter, ?getElementById_fmap,
        ?getElementById_alter, ?getElementById_fmap;
      try done; try apply id_deactivate_if. }
  destruct (innerWidth p <=? 768)%Z.
  - rewrite !lookup_alter_at, list_lookup_fmap, lookup_alter_at, list_lookup_fmap.
    unfold showSection_at. destruct (d !! j) as [e|]; [|done]. simpl.
    repeat case_decide; try done;
      rewrite ?bool_decide_eq_true_2, ?bool_decide_eq_false_2 by done; done.
  - rewrite !lookup_alter_at, list_lookup_fmap, lookup_alter_at, list_lookup_fmap.
    unfold showSection_at. destruct (d !! j) as [e|]; [|done]. simpl.
    repeat case_decide; done.
Qed.

Lemma elem_of_singleton_bool (c t : string) :
  bool_decide (c ∈ [t]) = bool_decide (c = t).
Proof. apply bool_decide_ext. apply list_elem_of_singleton. Qed.

Lemma has_class_deactivate_if c k e :
  has_class c (deactivate_if k e)
  = has_class c e && negb (has_class k e && bool_decide (c = "active")).
Proof.
  unfold deactivate_if. destruct (has_class k e) eqn:Hk.
  - by rewrite has_class_remove, elem_of_singleton_bool.
  - simpl. by rewrite andb_true_r.
Qed.

Lemma has_class_activate c e :
  has_class c (classList_add ["active"] e)
  = has_class c e || bool_decide (c = "active").
Proof.
  by rewrite has_class_add, elem_of_singleton_bool by apply active_is_token.
Qed.

Lemma has_class_showSection_at c t el sb narrow j e :
  has_class c (showSection_at t el sb narrow j e)
  = if bool_decide (c = "active") then
      (((has_class "active" e && negb (has_class "content-section" e))
        || bool_decide (t = Some j))
       && negb (has_class "nav-item" e))
      || bool_decide (el = Some j)
    else if bool_decide (c = "open") then
      has_class "open" e && negb (narrow && bool_decide (sb = Some j))
    else has_class c e.
Proof.
  unfold showSection_at.
  assert (∀ (b : bool) f (x : Element),
    has_class c (if b then f x else x)
    = if b then has_class c (f x) else has_class c x) as Hif
    by (by intros []).
  assert (∀ k (P : Prop) `{!Decision P} (x : Element),
    has_class k (if decide P then classList_add ["active"] x else x)
    = has_class k x || (bool_decide P && bool_decide (k = "active"))) as Hadd.
  { intros k P ? x. case_decide.
    - rewrite has_class_activate. by rewrite (bool_decide_eq_true_2 P).
    - rewrite (bool_decide_eq_false_2 P) by done. simpl. by rewrite orb_false_r. }
  rewrite Hif, has_class_remove, elem_of_singleton_bool.
  rewrite !Hadd, !has_class_deactivate_if, !Hadd, !has_class_deactivate_if.
  destruct (bool_decide (c = "active")) eqn:Hc.
  - apply bool_decide_eq_true in Hc as ->. simpl.
    rewrite !andb_true_r, !andb_false_r, !orb_false_r, !andb_true_r.
    destruct (narrow && bool_decide (sb = Some j)),
      (has_class "active" e), (has_class "content-section" e),
      (has_class "nav-item" e), (bool_decide (t = Some j)),
      (bool_decide (el = Some j)); done.
  - simpl. rewrite !andb_false_r, !orb_false_r, !andb_true_r.
    destruct (bool_decide (c = "open")) eqn:Ho.
    + apply bool_decide_eq_true in Ho as ->.
      by destruct (narrow && bool_decide (sb = Some j)), (has_class "open" e).
    + by destruct (narrow && bool_decide (sb = Some j)), (has_class c e).
Qed.

Lemma is_section_showSection env s el p j :
  is_section j (showSection env s el p) = is_section j p.
Proof.
  unfold is_section. rewrite showSection_lookup.
  destruct (elements p !! j) as [e|]; [|done]. simpl.
  by rewrite has_class_showSection_at.
Qed.

Lemma is_navItem_showSection env s el p j :
  is_navItem j (showSection env s el p) = is_navItem j p.
Proof.
  unfold is_navItem. rewrite showSection_lookup.
  destruct (elements p !! j) as [e|]; [|done]. simpl.
  by rewrite has_class_showSection_at.
Qed.

Lemma is_active_showSection env s el p j e :
  elements p !! j = Some e →
  is_active j (showSection env s el p)
  = (((has_class "active" e && negb (has_class "content-section" e))
      || bool_decide (getElementById s (elements p) = Some j))
     && negb (has_class "nav-item" e))
    || bool_decide (el = Some j).
Proof.
  intros He. unfold is_active. rewrite showSection_lookup, He. simpl.
  by rewrite has_class_showSection_at.
Qed.

End UiFacts.

(** * [showSection] *)

Section ShowSection.
Import Dom Ui.

Lemma showSection_location_hash env s el p :
  location_hash (showSection env s el p)
  = if has_replaceState env then Url.hash_for s else location_hash p.
Proof.
  unfold showSection, update_hash, close_sidebar_on_mobile, update_nav,
    show_target, hide_sections. rewrite replaceState_hash.
  repeat (case_match; simpl); done.
Qed.

Lemma showSection_history_length env s el p :
  history_length (showSection env s el p) = history_length p.
Proof.
  unfold showSection, update_hash, close_sidebar_on_mobile, update_nav,
    show_target, hide_sections. rewrite replaceState_hash.
  repeat (case_match; simpl); done.
Qed.

Lemma showSection_body_overflow env s el p :
  body_overflow (showSection env s el p) = body_overflow p.
Proof.
  unfold showSection, update_hash, close_sidebar_on_mobile, update_nav,
    show_target, hide_sections. rewrite replaceState_hash.
  repeat (case_match; simpl); done.
Qed.

Lemma showSection_console_timers env s el p :
  console (showSection env s el p) = console p ∧
  timers (showSection env s el p) = timers p ∧
  clipboard (showSection env s el p) = clipboard p.
Proof.
  unfold showSection, update_hash, close_sidebar_on_mobile, update_nav,
    show_target, hide_sections. rewrite replaceState_hash.
  repeat (case_match; simpl); done.
Qed.

Lemma showSection_scrollTo_calls env s el p :
  scrollTo_calls (showSection env s el p)
  = match getElementById s (elements p) with
    | Some _ => S (scrollTo_calls p)
    | None => scrollTo_calls p
    end.
Proof.
  unfold showSection, update_hash, close_sidebar_on_mobile, update_nav,
    show_target. rewrite replaceState_hash.
  rewrite hide_sections_elements.
  rewrite (getElementById_fmap s) by apply id_deactivate_if.
  unfold hide_sections.
  repeat (case_match; simpl); done.
Qed.

End ShowSection.




(** The section a key names is the one section [showSection] shows. *)
Lemma showSection_shows_target env S el p t :
  getElementById S (elements p) = Some t →
  is_section t p = true →
  (∀ n, el = Some n → is_navItem n p = true) →
  (∀ j, is_section j p = true → is_navItem j p = false) →
  is_active t (showSection env S el p) = true ∧
  (∀ j, is_section j (showSection env S el p) = true →
        is_active j (showSection env S el p) = true → j = t).
Proof.
  intros Ht Hsec Hnav Hdisj.
  destruct (getElementById_Some _ _ _ Ht) as (et & Het & Hid).
  split.
  - rewrite (is_active_showSection _ _ _ _ _ _ Het), Ht.
    rewrite (bool_decide_eq_true_2 (Some t = Some t)) by done.
    pose proof (Hdisj t Hsec) as Hnot. unfold is_navItem in Hnot.
    rewrite Het in Hnot. simpl in Hnot. rewrite Hnot.
    by rewrite orb_true_r.
  - intros j Hj Hact. rewrite is_section_showSection in Hj.
    pose proof (Hdisj j Hj) as Hnot.
    unfold is_section in Hj. unfold is_navItem in Hnot.
    destruct (elements p !! j) as [e|] eqn:He; [|done]. simpl in Hj, Hnot.
    rewrite (is_active_showSection _ _ _ _ _ _ He), Ht, Hj, Hnot in Hact.
    rewrite andb_false_r in Hact. simpl in Hact.
    rewrite andb_true_r in Hact. apply orb_true_iff in Hact as [Hact|Hact].
    + apply bool_decide_eq_true in Hact. congruence.
    + apply bool_decide_eq_true in Hact.
      specialize (Hnav j Hact). unfold is_navItem in Hnav.
      rewrite He in Hnav. simpl in Hnav. congruence.
Qed.

(** The element passed is the one navigation item [showSection] leaves
    active. *)
Lemma showSection_activates_element env S n p :
  is_Some (elements p !! n) →
  is_active n (showSection env S (Some n) p) = true ∧
  (∀ j, is_navItem j (showSection env S (Some n) p) = true → j ≠ n →
        is_active j (showSection env S (Some n) p) = false).
Proof.
  intros [e He]. split.
  - rewrite (is_active_showSection _ _ _ _ _ _ He).
    rewrite (bool_decide_eq_true_2 (Some n = Some n)) by done.
    apply orb_true_r.
  - intros j Hj Hne. rewrite is_navItem_showSection in Hj.
    unfold is_navItem in Hj.
    destruct (elements p !! j) as [ej|] eqn:Hej; [|done]. simpl in Hj.
    rewrite (is_active_showSection _ _ _ _ _ _ Hej), Hj.
    rewrite (bool_decide_eq_false_2 (Some n = Some j)) by congruence.
    simpl. by rewrite andb_false_r.
Qed.

Lemma is_navItem_is_Some n p :
  is_navItem n p = true → is_Some (elements p !! n).
Proof.
  unfold is_navItem. destruct (elements p !! n) as [e|]; [by eexists|done].
Qed.

(** C6.  For a key [S] that names a section, [showSection S navItem]
    leaves exactly one section shown, the one with id [S], and the
    navigation item passed is the one active navigation item.  Sections
    and navigation items are different elements, as on the page. *)
Theorem showSection_valid_key env S navItem p t :
  getElementById S (elements p) = Some t →
  is_section t p = true →
  is_navItem navItem p = true →
  (∀ j, is_section j p = true → is_navItem j p = false) →
  (∃ e, elements (showSection env S (Some navItem) p) !! t = Some e ∧ id e = S) ∧
  is_section t (showSection env S (Some navItem) p) = true ∧
  is_active t (showSection env S (Some navItem) p) = true ∧
  (∀ j, is_section j (showSection env S (Some navItem) p) = true →
        is_active j (showSection env S (Some navItem) p) = true → j = t) ∧
  is_navItem navItem (showSection env S (Some navItem) p) = true ∧
  is_active navItem (showSection env S (Some navItem) p) = true ∧
  (∀ j, is_navItem j (showSection env S (Some navItem) p) = true →
        j ≠ navItem →
        is_active j (showSection env S (Some navItem) p) = false).
Proof.
  intros Ht Hsec Hnav Hdisj.
  destruct (getElementById_Some _ _ _ Ht) as (et & Het & Hid).
  assert (∀ n, Some navItem = Some n → is_navItem n p = true) as Hnav'
    by (by intros n [= <-]).
  destruct (showSection_shows_target env S (Some navItem) p t
              Ht Hsec Hnav' Hdisj) as [Hshown Honly].
  destruct (showSection_activates_element env S navItem p
              (is_navItem_is_Some _ _ Hnav)) as [Hnavact Hothers].
  split_and!; try done.
  - rewrite showSection_lookup, Het. eexists. split; [reflexivity|].
    rewrite <- Hid. unfold showSection_at, deactivate_if.
    repeat (case_match; simpl); done.
  - by rewrite is_section_showSection.
  - by rewrite is_navItem_showSection.
Qed.

Lemma showSection_valid_key_witness :
  getElementById "api" (elements (Sample.page 1024 "")) = Some 6 ∧
  is_active 6 (showSection Sample.env "api" (Some 2) (Sample.page 1024 "")) = true ∧
  (∀ j, is_navItem j (showSection Sample.env "api" (Some 2) (Sample.page 1024 "")) = true →
        j ≠ 2 →
        is_active j (showSection Sample.env "api" (Some 2) (Sample.page 1024 "")) = false).
Proof.
  assert (∀ j, is_section j (Sample.page 1024 "") = true →
               is_navItem j (Sample.page 1024 "") = false) as Hdisj.
  { intros j. do 12 (destruct j as [|j]; [vm_compute; by intros|]).
    vm_compute. discriminate. }
  destruct (showSection_valid_key Sample.env "api" 2 (Sample.page 1024 "") 6
              eq_refl eq_refl eq_refl Hdisj)
    as (_ & _ & Hact & _ & _ & _ & Hothers).
  split; [reflexivity|]. split; [exact Hact | exact Hothers].
Defined.

(** C10, as the code has it.  Where [history.replaceState] exists,
    [showSection] sets the hash to what the browser makes of [#] followed
    by its key, whether or not the key names an element, and adds no
    history entry.  For a key that is not empty and holds printable ASCII
    only, without space, double quote, [<], [>] and backquote, that is
    [#] followed by the key; an empty key gives the empty hash.  On the
    sample page the hash comes to name a section that does not exist. *)
Theorem showSection_sets_hash env sectionId el p :
  has_replaceState env = true →
  location_hash (showSection env sectionId el p) = Url.hash_for sectionId ∧
  (Url.plain sectionId = true → sectionId ≠ "" →
   location_hash (showSection env sectionId el p) = "#" +:+ sectionId) ∧
  (sectionId = "" → location_hash (showSection env sectionId el p) = "") ∧
  history_length (showSection env sectionId el p) = history_length p ∧
  (getElementById "nope" (elements (Sample.page 1024 "")) = None ∧
   location_hash (showSection Sample.env "nope" None (Sample.page 1024 ""))
   = "#nope").
Proof.
  intros Hrs.
  assert (location_hash (showSection env sectionId el p)
          = Url.hash_for sectionId) as Hhash
    by (by rewrite showSection_location_hash, Hrs).
  split_and!.
  - exact Hhash.
  - intros Hplain Hne. rewrite Hhash. by apply hash_for_plain.
  - intros ->. by rewrite Hhash.
  - apply showSection_history_length.
  - reflexivity.
  - reflexivity.
Qed.

Lemma showSection_sets_hash_witness :
  has_replaceState Sample.env = true ∧ Url.plain "faq" = true ∧
  location_hash (showSection Sample.env "faq" (Some 3) (Sample.page 500 "#intro"))
  = "#faq".
Proof.
  assert ("faq" ≠ "") as Hne by discriminate.
  destruct (showSection_sets_hash Sample.env "faq" (Some 3)
              (Sample.page 500 "#intro") eq_refl) as (_ & Hplain & _).
  split; [reflexivity|]. split; [reflexivity|].
  exact (Hplain eq_refl Hne).
Defined.

(** C10 as stated fails: for the key [a b] the hash is [#a%20b], not [#]
    followed by the key, and a key that ends in a space loses it. *)
Lemma showSection_hash_is_encoded :
  has_replaceState Sample.env = true ∧
  location_hash (showSection Sample.env "a b" None (Sample.page 1024 ""))
  = "#a%20b" ∧
  location_hash (showSection Sample.env "a b" None (Sample.page 1024 ""))
  ≠ "#" +:+ "a b" ∧
  location_hash (showSection Sample.env "api " None (Sample.page 1024 ""))
  = "#api".
Proof. split_and!; [reflexivity..|discriminate|reflexivity]. Qed.

(** * The sidebar *)

Section Sidebar.

Lemma id_classList_remove ts e : id (classList_remove ts e) = id e.
Proof. reflexivity. Qed.

Lemma id_classList_toggle t e : id (classList_toggle t e) = id e.
Proof. reflexivity. Qed.

Lemma sidebar_open_alter p sb e f :
  getElementById "sidebar" (elements p) = Some sb →
  elements p !! sb = Some e →
  (∀ x, id (f x) = id x) →
  sidebar_open (with_elements (alter f sb) p) = has_class "open" (f e).
Proof.
  intros Hsb He Hid. unfold sidebar_open. simpl.
  rewrite getElementById_alter by done.
  by rewrite Hsb, list_lookup_alter_eq, He.
Qed.

Lemma has_class_open_removed e :
  has_class "open" (classList_remove ["open"] e) = false.
Proof.
  rewrite has_class_remove, elem_of_singleton_bool.
  rewrite (bool_decide_eq_true_2 ("open" = "open")) by done.
  apply andb_false_r.
Qed.

Lemma sidebar_open_absent p :
  getElementById "sidebar" (elements p) = None → sidebar_open p = false.
Proof. intros H. unfold sidebar_open. by rewrite H. Qed.

(** Closing the sidebar the way the outside click, Escape and resize
    paths do it: remove [open] and release the lock. *)
Lemma close_and_release p sb :
  getElementById "sidebar" (elements p) = Some sb →
  sidebar_open
    (set_body_overflow ""
       (with_elements (alter (classList_remove ["open"]) sb) p)) = false ∧
  scroll_locked
    (set_body_overflow ""
       (with_elements (alter (classList_remove ["open"]) sb) p)) = false.
Proof.
  intros Hsb. destruct (getElementById_Some _ _ _ Hsb) as (e & He & _).
  split; [|done].
  change (sidebar_open (with_elements (alter (classList_remove ["open"]) sb) p)
          = false).
  rewrite (sidebar_open_alter p sb e) by done.
  apply has_class_open_removed.
Qed.

Lemma toggleSidebar_synchronized p :
  synchronized p → synchronized (toggleSidebar p).
Proof.
  intros Hsync. unfold toggleSidebar.
  destruct (getElementById "sidebar" (elements p)) as [sb|] eqn:Hsb; [|done].
  destruct (getElementById_Some _ _ _ Hsb) as (e & He & _).
  simpl. rewrite list_lookup_alter_eq, He. simpl.
  unfold synchronized.
  destruct (has_class "open" (classList_toggle "open" e)) eqn:Hopen.
  - change (sidebar_open (with_elements (alter (classList_toggle "open") sb) p)
            = true).
    by rewrite (sidebar_open_alter p sb e).
  - change (sidebar_open (with_elements (alter (classList_toggle "open") sb) p)
            = false).
    by rewrite (sidebar_open_alter p sb e).
Qed.

Lemma toggleSidebar_flips p sb :
  getElementById "sidebar" (elements p) = Some sb →
  sidebar_open (toggleSidebar p) = negb (sidebar_open p).
Proof.
  intros Hsb. destruct (getElementById_Some _ _ _ Hsb) as (e & He & _).
  unfold toggleSidebar. rewrite Hsb. simpl.
  rewrite list_lookup_alter_eq, He. simpl.
  assert (sidebar_open p = has_class "open" e) as ->.
  { unfold sidebar_open. by rewrite Hsb, He. }
  rewrite <- (has_class_toggle "open" e) by done.
  destruct (has_class "open" (classList_toggle "open" e)) eqn:Hopen.
  - change (sidebar_open (with_elements (alter (classList_toggle "open") sb) p)
            = true).
    by rewrite (sidebar_open_alter p sb e).
  - change (sidebar_open (with_elements (alter (classList_toggle "open") sb) p)
            = false).
    by rewrite (sidebar_open_alter p sb e).
Qed.

Lemma handleOutsideClick_synchronized target p :
  synchronized p → synchronized (page_of (handleOutsideClick target p)).
Proof.
  intros Hsync. unfold handleOutsideClick.
  destruct (innerWidth p <=? 768)%Z; [|done].
  destruct (getElementById "sidebar" (elements p)) as [sb|] eqn:Hsb; [|done].
  destruct (node_contains sb target (elements p)); [done|].
  destruct (querySelector_class "menu-toggle" (elements p)) as [tb|]; [|done].
  destruct (node_contains tb target (elements p)); [done|].
  destruct (elements p !! sb) as [e|]; [|done].
  destruct (has_class "open" e); [|done].
  simpl. unfold synchronized.
  destruct (close_and_release p sb Hsb) as [-> ->]. done.
Qed.

Lemma handleKeyboardNavigation_synchronized key altKey p :
  synchronized p → synchronized (handleKeyboardNavigation key altKey p).
Proof.
  intros Hsync. unfold handleKeyboardNavigation.
  match goal with
  | |- synchronized (if ?b then toggleSidebar ?q else ?q) =>
      assert (synchronized q) as Hq
  end.
  { case_decide; [|done].
    destruct (getElementById "sidebar" (elements p)) as [sb|] eqn:Hsb; [|done].
    destruct (elements p !! sb) as [e|]; [|done].
    destruct (has_class "open" e); [|done].
    unfold synchronized.
    destruct (close_and_release p sb Hsb) as [-> ->]. done. }
  destruct (altKey && _); [by apply toggleSidebar_synchronized|done].
Qed.

Lemma handleResize_synchronized p :
  synchronized p → synchronized (handleResize p).
Proof.
  intros Hsync. unfold handleResize.
  destruct (768 <? innerWidth p)%Z; [|done].
  destruct (getElementById "sidebar" (elements p)) as [sb|] eqn:Hsb.
  - unfold synchronized. destruct (close_and_release p sb Hsb) as [-> ->]. done.
  - unfold synchronized, sidebar_open. simpl. by rewrite Hsb.
Qed.

End Sidebar.

(** C9.  After a resize to a width above 768 the sidebar is closed and the
    scroll lock released, whatever the state before.  The sidebar is the
    element it was, in its place, with [open] taken from its classes and
    its other classes as they were; no other element changes, and the
    hash, the history, the scroll position, the console and the timers
    are as before. *)
Theorem handleResize_wide p w :
  (768 < w)%Z →
  sidebar_open (resize_to w p) = false ∧
  body_overflow (resize_to w p) = "" ∧
  scroll_locked (resize_to w p) = false ∧
  getElementById "sidebar" (elements (resize_to w p))
  = getElementById "sidebar" (elements p) ∧
  elements (resize_to w p)
  = alter_at (classList_remove ["open"])
      (getElementById "sidebar" (elements p)) (elements p) ∧
  (∀ sb e,
     getElementById "sidebar" (elements p) = Some sb →
     elements p !! sb = Some e →
     ∃ e', elements (resize_to w p) !! sb = Some e' ∧
           set_className "" e' = set_className "" e ∧
           has_class "open" e' = false ∧
           ∀ c, c ≠ "open" → has_class c e' = has_class c e) ∧
  (∀ j, getElementById "sidebar" (elements p) ≠ Some j →
        elements (resize_to w p) !! j = elements p !! j) ∧
  innerWidth (resize_to w p) = w ∧
  location_hash (resize_to w p) = location_hash p ∧
  history_length (resize_to w p) = history_length p ∧
  scrollTo_calls (resize_to w p) = scrollTo_calls p ∧
  console (resize_to w p) = console p ∧
  timers (resize_to w p) = timers p.
Proof.
  intros Hw. unfold resize_to, handleResize. simpl.
  apply Z.ltb_lt in Hw. rewrite Hw.
  destruct (getElementById "sidebar" (elements p)) as [sb|] eqn:Hsb.
  - destruct (close_and_release (set_innerWidth w p) sb Hsb) as [Ho Hl].
    split_and!; try done.
    + simpl. by rewrite getElementById_alter.
    + intros sb' e [= <-] He. exists (classList_remove ["open"] e).
      simpl. rewrite list_lookup_alter_eq, He.
      split_and!; [done|done|apply has_class_open_removed|].
      intros c Hc. rewrite has_class_remove, elem_of_singleton_bool.
      rewrite (bool_decide_eq_false_2 (c = "open")) by done.
      apply andb_true_r.
    + intros j Hj. simpl. apply list_lookup_alter_ne. congruence.
  - split_and!; try done. unfold sidebar_open. simpl. by rewrite Hsb.
Qed.

Lemma handleResize_wide_witness :
  (768 < 1024)%Z ∧
  sidebar_open (toggleSidebar (Sample.page 500 "")) = true ∧
  sidebar_open (resize_to 1024 (toggleSidebar (Sample.page 500 ""))) = false ∧
  body_overflow (resize_to 1024 (toggleSidebar (Sample.page 500 ""))) = "" ∧
  getElementById "sidebar"
    (elements (resize_to 1024 (toggleSidebar (Sample.page 500 "")))) = Some 0 ∧
  length (elements (resize_to 1024 (toggleSidebar (Sample.page 500 "")))) = 12.
Proof.
  split; [reflexivity|]. split; [reflexivity|].
  destruct (handleResize_wide (toggleSidebar (Sample.page 500 "")) 1024 eq_refl)
    as (Hopen & Hover & _ & Hsb & Hel & _).
  split; [exact Hopen|]. split; [exact Hover|].
  split; [rewrite Hsb; reflexivity|]. rewrite Hel. reflexivity.
Defined.

(** Every event but a selection keeps the sidebar and the scroll lock
    together. *)
Lemma dispatch_synchronized env ev p :
  is_select ev = false → synchronized p → synchronized (dispatch env ev p).
Proof.
  intros Hev Hsync. destruct ev as [|target|key altKey|w|s el]; simpl.
  - by apply toggleSidebar_synchronized.
  - pose proof (handleOutsideClick_synchronized target p Hsync) as H.
    by destruct (handleOutsideClick target p).
  - by apply handleKeyboardNavigation_synchronized.
  - unfold resize_to. by apply handleResize_synchronized.
  - discriminate Hev.
Qed.

Lemma run_synchronized env evs p :
  forallb (λ ev, negb (is_select ev)) evs = true →
  synchronized p → synchronized (run env evs p).
Proof.
  revert p. induction evs as [|ev evs IH]; intros p Hevs Hsync; [done|].
  simpl in Hevs. apply andb_true_iff in Hevs as [Hev Hevs].
  apply negb_true_iff in Hev. simpl. apply IH; [done|].
  by apply dispatch_synchronized.
Qed.

(** C2, at the input where the code breaks it.  On a narrow viewport the
    sidebar is opened with [toggleSidebar], which locks the scroll; then
    [showSection] closes the sidebar and leaves the lock in place. *)
Theorem showSection_keeps_scroll_lock :
  synchronized (Sample.page 500 "") ∧
  synchronized (run Sample.env [Toggle] (Sample.page 500 "")) ∧
  sidebar_open
    (run Sample.env [Toggle; Select "api" (Some 2)] (Sample.page 500 ""))
  = false ∧
  scroll_locked
    (run Sample.env [Toggle; Select "api" (Some 2)] (Sample.page 500 ""))
  = true ∧
  ¬ synchronized
      (run Sample.env [Toggle; Select "api" (Some 2)] (Sample.page 500 "")).
Proof.
  split_and!; [reflexivity..|]. unfold synchronized. vm_compute. discriminate.
Qed.

(** The same on every narrow page whose sidebar is open and whose scroll
    is locked. *)
Lemma getElementById_alter_at i f r (d : Document) :
  (∀ e, id (f e) = id e) → getElementById i (alter_at f r d) = getElementById i d.
Proof.
  intros Hid. destruct r as [k|]; [|done]. by apply getElementById_alter.
Qed.

Lemma getElementById_showSection i env s el p :
  getElementById i (elements (showSection env s el p))
  = getElementById i (elements p).
Proof.
  unfold showSection.
  rewrite update_hash_elements, close_sidebar_on_mobile_elements.
  assert (getElementById i
            (elements (update_nav el (show_target s (hide_sections p))))
          = getElementById i (elements p)) as Hsame.
  { rewrite update_nav_elements, show_target_elements, !hide_sections_elements.
    rewrite getElementById_alter_at by done.
    rewrite getElementById_fmap by apply id_deactivate_if.
    rewrite getElementById_alter_at by done.
    by rewrite getElementById_fmap by apply id_deactivate_if. }
  destruct (_ <=? _)%Z; [|done].
  by rewrite getElementById_alter_at.
Qed.

Lemma showSection_narrow_keeps_lock env s el p :
  (innerWidth p <= 768)%Z →
  sidebar_open p = true →
  scroll_locked p = true →
  sidebar_open (showSection env s el p) = false ∧
  scroll_locked (showSection env s el p) = true.
Proof.
  intros Hw Hopen Hlock. split.
  - unfold sidebar_open in *. rewrite getElementById_showSection.
    destruct (getElementById "sidebar" (elements p)) as [sb|] eqn:Hsb; [|done].
    rewrite showSection_lookup, Hsb.
    destruct (elements p !! sb) as [e|]; [|done]. simpl in *.
    rewrite has_class_showSection_at. simpl.
    apply Z.leb_le in Hw. rewrite Hw.
    rewrite (bool_decide_eq_true_2 (Some sb = Some sb)) by done.
    apply andb_false_r.
  - unfold scroll_locked in *. by rewrite showSection_body_overflow.
Qed.

(** * [handleInitialLoad] *)

Lemma handleInitialLoad_plain env p :
  css_plain (substring1 (location_hash p)) = true →
  handleInitialLoad env p
  = match first_onclick_containing (substring1 (location_hash p)) (elements p)
    with
    | Some el => Returns (showSection env (substring1 (location_hash p)) (Some el) p)
    | None => Returns p
    end.
Proof.
  intros Hplain. unfold handleInitialLoad, querySelector_onclick.
  rewrite Hplain. case_decide as Hempty; [|done].
  rewrite Hempty. done.
Qed.





(** * Copy feedback and its timers *)

Section CopyFeedback.

Lemma elapse_one_due ms p due t :
  timers p = [(due, t)] → due ≤ clock p + ms →
  elapse ms p = run_task t (set_clock_timers (clock p + ms) [] p).
Proof.
  intros Ht Hdue. unfold elapse. rewrite Ht.
  rewrite !filter_cons, !filter_nil. simpl.
  repeat case_decide; try lia; done.
Qed.

Lemma elapse_none_due ms p due t :
  timers p = [(due, t)] → clock p + ms < due →
  elapse ms p = set_clock_timers (clock p + ms) [(due, t)] p.
Proof.
  intros Ht Hdue. unfold elapse. rewrite Ht.
  rewrite !filter_cons, !filter_nil. simpl.
  repeat case_decide; try lia; done.
Qed.

Lemma elapse_two_due ms p due1 t1 due2 t2 :
  timers p = [(due1, t1); (due2, t2)] →
  due1 ≤ clock p + ms → due2 ≤ clock p + ms →
  elapse ms p
  = run_task t2 (run_task t1 (set_clock_timers (clock p + ms) [] p)).
Proof.
  intros Ht H1 H2. unfold elapse. rewrite Ht.
  rewrite !filter_cons, !filter_nil. simpl.
  repeat case_decide; try lia; done.
Qed.

Lemma showCopyFeedback_fresh p b e0 :
  elements p !! b = Some e0 → timers p = [] →
  elements (showCopyFeedback b p) = alter feedback_shown b (elements p) ∧
  timers (showCopyFeedback b p)
  = [(clock p + 2000, RevertFeedback b (innerHTML e0) (className e0))] ∧
  clock (showCopyFeedback b p) = clock p.
Proof.
  intros He Ht. unfold showCopyFeedback, setTimeout. rewrite He. simpl.
  by rewrite Ht.
Qed.

Lemma showCopyError_fresh p b e0 :
  elements p !! b = Some e0 → timers p = [] →
  elements (showCopyError b p) = alter error_shown b (elements p) ∧
  timers (showCopyError b p)
  = [(clock p + 2000, RevertError b (innerHTML e0) (className e0))] ∧
  clock (showCopyError b p) = clock p.
Proof.
  intros He Ht. unfold showCopyError, setTimeout. rewrite He. simpl.
  by rewrite Ht.
Qed.


Lemma element_eta e :
  set_className (className e) (set_innerHTML (innerHTML e) e) = e.
Proof. by destruct e. Qed.






End CopyFeedback.

Lemma with_elements_app_nil p : with_elements (λ d, d ++ []) p = p.
Proof. destruct p. unfold with_elements. simpl. by rewrite app_nil_r. Qed.

Lemma copyCode_found env b p c cb code :
  closest "code-container" b (elements p) = Some c →
  querySelector_tag_in c "code" (elements p) = Some cb →
  elements p !! cb = Some code →
  copyCode env b p
  = if copy_throws env
    then showCopyError b
           (console_log LogError "Failed to copy code:"
              (with_elements (λ d, d ++ copy_leak env (code_text code)) p))
    else showCopyFeedback b
           (if copy_lands env then set_clipboard (code_text code) p else p).
Proof.
  intros Hc Hcb Hcode.
  unfold copyCode, copyCode_try, copy_throws, copy_lands, copy_leak.
  rewrite Hc, Hcb, Hcode. fold (code_text code).
  destruct (has_clipboard_api env).
  - destruct (writeText_resolves env); [done|]. simpl.
    by rewrite with_elements_app_nil.
  - by destruct (execCommand_copy env).
Qed.





Lemma has_class_copied_feedback_shown e :
  has_class "copied" (feedback_shown e) = true.
Proof.
  unfold feedback_shown. rewrite has_class_add by (by repeat constructor).
  rewrite (bool_decide_eq_true_2 ("copied" ∈ ["copied"; "copying"]))
    by (by left).
  apply orb_true_r.
Qed.

(** A second [showCopyFeedback] on a control whose feedback is still
    showing takes its snapshot of the control in the feedback state; once
    both reversions have run the control is in the feedback state. *)
Lemma showCopyFeedback_twice p b e0 dt ms :
  elements p !! b = Some e0 → timers p = [] → dt < 2000 → 2000 ≤ ms →
  timers (showCopyFeedback b (elapse dt (showCopyFeedback b p)))
  = [(clock p + 2000, RevertFeedback b (innerHTML e0) (className e0));
     (clock p + dt + 2000,
      RevertFeedback b check_icon
        (DomTokenList.add ["copied"; "copying"] (className e0)))] ∧
  elements (elapse ms (showCopyFeedback b (elapse dt (showCopyFeedback b p))))
  = <[b := feedback_shown e0]> (elements p) ∧
  elements (elapse dt (showCopyFeedback b p))
  = alter feedback_shown b (elements p).
Proof.
  intros He Ht Hdt Hms.
  destruct (showCopyFeedback_fresh p b e0 He Ht) as (Hel1 & Htm1 & Hck1).
  set (p1 := showCopyFeedback b p) in *.
  assert (elapse dt p1
          = set_clock_timers (clock p + dt)
              [(clock p + 2000, RevertFeedback b (innerHTML e0) (className e0))]
              p1) as Hwait.
  { rewrite (elapse_none_due dt p1 _ _ Htm1) by (rewrite Hck1; lia).
    by rewrite Hck1. }
  rewrite Hwait.
  set (p1' := set_clock_timers _ _ p1).
  assert (elements p1' !! b = Some (feedback_shown e0)) as He1.
  { unfold p1'. simpl. by rewrite Hel1, list_lookup_alter_eq, He. }
  assert (timers (showCopyFeedback b p1')
          = [(clock p + 2000, RevertFeedback b (innerHTML e0) (className e0));
             (clock p + dt + 2000,
              RevertFeedback b check_icon
                (DomTokenList.add ["copied"; "copying"] (className e0)))])
    as Htm2.
  { unfold showCopyFeedback, setTimeout. rewrite He1. unfold p1'. simpl.
    by rewrite (proj2 (Nat.leb_le (clock p + 2000) (clock p + dt + 2000)))
      by lia. }
  split; [exact Htm2|]. split; [|done].
  assert (clock (showCopyFeedback b p1') = clock p + dt) as Hck2.
  { unfold showCopyFeedback, setTimeout. by rewrite He1. }
  assert (elements (showCopyFeedback b p1')
          = alter feedback_shown b (alter feedback_shown b (elements p))) as Hel2.
  { unfold showCopyFeedback, setTimeout. rewrite He1. unfold p1'. simpl.
    by rewrite Hel1. }
  rewrite (elapse_two_due ms _ _ _ _ _ Htm2) by (rewrite Hck2; lia).
  simpl. rewrite Hel2.
  apply list_eq. intros i. destruct (decide (i = b)) as [->|Hne].
  - rewrite !list_lookup_alter_eq, He.
    rewrite list_lookup_insert_eq by (by eapply lookup_lt_Some).
    simpl. f_equal; try by destruct e0.
  - rewrite !list_lookup_alter_ne by done. by rewrite list_lookup_insert_ne.
Qed.

(** The same for [showCopyError]: the second snapshot holds the warning
    icon, and that is the markup the control ends with. *)
Lemma showCopyError_twice p b e0 dt ms :
  elements p !! b = Some e0 → timers p = [] → dt < 2000 → 2000 ≤ ms →
  timers (showCopyError b (elapse dt (showCopyError b p)))
  = [(clock p + 2000, RevertError b (innerHTML e0) (className e0));
     (clock p + dt + 2000, RevertError b warning_icon (className e0))] ∧
  elements (elapse ms (showCopyError b (elapse dt (showCopyError b p))))
  = <[b := style_cleared (set_innerHTML warning_icon e0)]> (elements p) ∧
  elements (elapse dt (showCopyError b p))
  = alter error_shown b (elements p).
Proof.
  intros He Ht Hdt Hms.
  destruct (showCopyError_fresh p b e0 He Ht) as (Hel1 & Htm1 & Hck1).
  set (p1 := showCopyError b p) in *.
  assert (elapse dt p1
          = set_clock_timers (clock p + dt)
              [(clock p + 2000, RevertError b (innerHTML e0) (className e0))]
              p1) as Hwait.
  { rewrite (elapse_none_due dt p1 _ _ Htm1) by (rewrite Hck1; lia).
    by rewrite Hck1. }
  rewrite Hwait.
  set (p1' := set_clock_timers _ _ p1).
  assert (elements p1' !! b = Some (error_shown e0)) as He1.
  { unfold p1'. simpl. by rewrite Hel1, list_lookup_alter_eq, He. }
  assert (timers (showCopyError b p1')
          = [(clock p + 2000, RevertError b (innerHTML e0) (className e0));
             (clock p + dt + 2000, RevertError b warning_icon (className e0))])
    as Htm2.
  { unfold showCopyError, setTimeout. rewrite He1. unfold p1'. simpl.
    by rewrite (proj2 (Nat.leb_le (clock p + 2000) (clock p + dt + 2000)))
      by lia. }
  split; [exact Htm2|]. split; [|done].
  assert (clock (showCopyError b p1') = clock p + dt) as Hck2.
  { unfold showCopyError, setTimeout. by rewrite He1. }
  assert (elements (showCopyError b p1')
          = alter error_shown b (alter error_shown b (elements p))) as Hel2.
  { unfold showCopyError, setTimeout. rewrite He1. unfold p1'. simpl.
    by rewrite Hel1. }
  rewrite (elapse_two_due ms _ _ _ _ _ Htm2) by (rewrite Hck2; lia).
  simpl. rewrite Hel2.
  apply list_eq. intros i. destruct (decide (i = b)) as [->|Hne].
  - rewrite !list_lookup_alter_eq, He.
    rewrite list_lookup_insert_eq by (by eapply lookup_lt_Some).
    simpl. f_equal; try by destruct e0.
  - rewrite !list_lookup_alter_ne by done. by rewrite list_lookup_insert_ne.
Qed.

(** Two pages with the same elements, timers and clock go through the
    feedback and the timers alike. *)
Lemma run_task_view t q p :
  elements q = elements p → timers q = timers p → clock q = clock p →
  elements (run_task t q) = elements (run_task t p) ∧
  timers (run_task t q) = timers (run_task t p) ∧
  clock (run_task t q) = clock (run_task t p).
Proof. intros He Ht Hc. destruct t; simpl; by rewrite ?He, ?Ht, ?Hc. Qed.

Lemma foldl_run_task_view (due : list (nat * Task)) q p :
  elements q = elements p → timers q = timers p → clock q = clock p →
  elements (foldl (λ p' t, run_task (snd t) p') q due)
  = elements (foldl (λ p' t, run_task (snd t) p') p due) ∧
  timers (foldl (λ p' t, run_task (snd t) p') q due)
  = timers (foldl (λ p' t, run_task (snd t) p') p due) ∧
  clock (foldl (λ p' t, run_task (snd t) p') q due)
  = clock (foldl (λ p' t, run_task (snd t) p') p due).
Proof.
  revert q p. induction due as [|t due IH]; intros q p He Ht Hc; [done|].
  simpl. destruct (run_task_view (snd t) q p He Ht Hc) as (H1 & H2 & H3).
  by apply IH.
Qed.

Lemma elapse_view ms q p :
  elements q = elements p → timers q = timers p → clock q = clock p →
  elements (elapse ms q) = elements (elapse ms p) ∧
  timers (elapse ms q) = timers (elapse ms p) ∧
  clock (elapse ms q) = clock (elapse ms p).
Proof.
  intros He Ht Hc. unfold elapse. rewrite Ht, Hc.
  by apply foldl_run_task_view.
Qed.

Lemma showCopyFeedback_view b q p :
  elements q = elements p → timers q = timers p → clock q = clock p →
  elements (showCopyFeedback b q) = elements (showCopyFeedback b p) ∧
  timers (showCopyFeedback b q) = timers (showCopyFeedback b p) ∧
  clock (showCopyFeedback b q) = clock (showCopyFeedback b p).
Proof.
  intros He Ht Hc. unfold showCopyFeedback, setTimeout. rewrite He.
  destruct (elements p !! b); simpl; by rewrite ?He, ?Ht, ?Hc.
Qed.

Lemma showCopyError_view b q p :
  elements q = elements p → timers q = timers p → clock q = clock p →
  elements (showCopyError b q) = elements (showCopyError b p) ∧
  timers (showCopyError b q) = timers (showCopyError b p) ∧
  clock (showCopyError b q) = clock (showCopyError b p).
Proof.
  intros He Ht Hc. unfold showCopyError, setTimeout. rewrite He.
  destruct (elements p !! b); simpl; by rewrite ?He, ?Ht, ?Hc.
Qed.

(** A write to the markup, the classes or the inline colours of an
    element moves no element and takes no [code-container] class away,
    so the control finds its code block as before. *)
Lemma lookup_alter_fmap (f : Element → Element) b (d : Document) i :
  ∃ g, alter f b d !! i = g <$> d !! i ∧ (g = f ∨ g = (λ e, e)).
Proof.
  destruct (decide (i = b)) as [->|Hne].
  - exists f. by rewrite list_lookup_alter_eq; auto.
  - exists (λ e, e). rewrite list_lookup_alter_ne by done.
    split; [|by right]. by destruct (d !! i).
Qed.

Lemma closest_alter c f b i (d : Document) :
  (∀ e, has_class c (f e) = has_class c e) →
  (∀ e, parent (f e) = parent e) →
  closest c i (alter f b d) = closest c i d.
Proof.
  intros Hc Hp. unfold closest. rewrite length_alter.
  generalize (length d) as fuel. intros fuel. revert i.
  induction fuel as [|fuel IH]; intros i; [done|].
  cbn [closest_go].
  destruct (lookup_alter_fmap f b d i) as (g & -> & [-> | ->]);
    destruct (d !! i) as [e|]; simpl; try done.
  - rewrite Hc, Hp. destruct (has_class c e); [done|].
    destruct (parent e); [apply IH|done].
  - destruct (has_class c e); [done|].
    destruct (parent e); [apply IH|done].
Qed.

Lemma contains_alter f b a t (d : Document) :
  (∀ e, parent (f e) = parent e) →
  Dom.contains a t (alter f b d) = Dom.contains a t d.
Proof.
  intros Hp. unfold Dom.contains. rewrite length_alter.
  generalize (length d) as fuel. intros fuel. revert t.
  induction fuel as [|fuel IH]; intros t; [done|].
  cbn [contains_go].
  destruct (lookup_alter_fmap f b d t) as (g & -> & [-> | ->]);
    destruct (d !! t) as [e|]; simpl; try done.
  - rewrite Hp. case_decide; [done|]. destruct (parent e); [apply IH|done].
  - case_decide; [done|]. destruct (parent e); [apply IH|done].
Qed.

Lemma querySelector_tag_in_alter f b a t (d : Document) :
  (∀ e, tag (f e) = tag e) →
  (∀ e, parent (f e) = parent e) →
  querySelector_tag_in a t (alter f b d) = querySelector_tag_in a t d.
Proof.
  intros Ht Hp. unfold querySelector_tag_in.
  rewrite find_from_alter by (intros j e; by rewrite Ht).
  apply find_from_ext. intros j e. by rewrite contains_alter.
Qed.

Lemma has_class_feedback_shown c e :
  c ≠ "copied" → c ≠ "copying" →
  has_class c (feedback_shown e) = has_class c e.
Proof.
  intros H1 H2. unfold feedback_shown.
  rewrite has_class_add by (by repeat constructor).
  rewrite bool_decide_eq_false_2; [apply orb_false_r|].
  intros [->|[->|[]%elem_of_nil]%elem_of_cons]%elem_of_cons; done.
Qed.

(** C3, where the code breaks it.  Two calls of [copyCode] on the same
    control, the second [dt] below 2000 ms after the first, on a control
    that has a code container with a code block.  When the copy step does
    not throw, both
    reversions are pending after the second call, each with the snapshot
    its call took, the second taken while the feedback shows; once both
    have run the control is in the feedback state, with the check mark
    and the classes [copied] and [copying], not in its state before the
    first call.  When the clipboard write is rejected both times, the
    control ends with the warning icon as its markup, its classes and
    empty inline colours. *)
Theorem repeated_copy_leaks env p b c cb code e0 dt ms :
  closest "code-container" b (elements p) = Some c →
  querySelector_tag_in c "code" (elements p) = Some cb →
  elements p !! cb = Some code →
  elements p !! b = Some e0 →
  timers p = [] → dt < 2000 → 2000 ≤ ms →
  (copy_throws env = false →
   timers (copyCode env b (elapse dt (copyCode env b p)))
   = [(clock p + 2000, RevertFeedback b (innerHTML e0) (className e0));
      (clock p + dt + 2000,
       RevertFeedback b check_icon
         (DomTokenList.add ["copied"; "copying"] (className e0)))] ∧
   elements (elapse ms (copyCode env b (elapse dt (copyCode env b p))))
   = <[b := feedback_shown e0]> (elements p)) ∧
  (has_clipboard_api env = true → writeText_resolves env = false →
   timers (copyCode env b (elapse dt (copyCode env b p)))
   = [(clock p + 2000, RevertError b (innerHTML e0) (className e0));
      (clock p + dt + 2000, RevertError b warning_icon (className e0))] ∧
   elements (elapse ms (copyCode env b (elapse dt (copyCode env b p))))
   = <[b := style_cleared (set_innerHTML warning_icon e0)]> (elements p)) ∧
  innerHTML (feedback_shown e0) = check_icon ∧
  has_class "copied" (feedback_shown e0) = true ∧
  innerHTML (style_cleared (set_innerHTML warning_icon e0)) = warning_icon ∧
  className (style_cleared (set_innerHTML warning_icon e0)) = className e0.
Proof.
  intros Hc Hcb Hcode He Ht Hdt Hms.
  split; [|split; [|by split_and!; [|apply has_class_copied_feedback_shown|..]]].
  - intros Hthrows.
    pose proof (copyCode_found env b p c cb code Hc Hcb Hcode) as H1.
    rewrite Hthrows in H1.
    set (q1 := if copy_lands env then _ else _) in H1.
    assert (elements q1 = elements p ∧ timers q1 = timers p ∧
            clock q1 = clock p) as (Hq1e & Hq1t & Hq1c)
      by (unfold q1; by destruct (copy_lands env)).
    destruct (showCopyFeedback_twice p b e0 dt ms He Ht Hdt Hms)
      as (Htm & Hel & Hmid).
    destruct (showCopyFeedback_view b q1 p Hq1e Hq1t Hq1c) as (Ha & Hb & Hcl).
    destruct (elapse_view dt _ _ Ha Hb Hcl) as (Ha' & Hb' & Hcl').
    rewrite <- H1 in Ha', Hb', Hcl'.
    set (p2 := elapse dt (copyCode env b p)) in *.
    assert (elements p2 = alter feedback_shown b (elements p)) as Hp2
      by (by rewrite Ha', Hmid).
    assert (closest "code-container" b (elements p2) = Some c) as Hc2.
    { rewrite Hp2, closest_alter; [done| |done].
      intros e. by apply has_class_feedback_shown. }
    assert (querySelector_tag_in c "code" (elements p2) = Some cb) as Hcb2
      by (by rewrite Hp2, querySelector_tag_in_alter).
    assert (is_Some (elements p2 !! cb)) as [code' Hcode'].
    { apply lookup_lt_is_Some. rewrite Hp2, length_alter.
      by eapply lookup_lt_Some. }
    pose proof (copyCode_found env b p2 c cb code' Hc2 Hcb2 Hcode') as H2.
    rewrite Hthrows in H2.
    set (q2 := if copy_lands env then _ else _) in H2.
    assert (elements q2 = elements p2 ∧ timers q2 = timers p2 ∧
            clock q2 = clock p2) as (Hq2e & Hq2t & Hq2c)
      by (unfold q2; by destruct (copy_lands env)).
    rewrite Ha' in Hq2e. rewrite Hb' in Hq2t. rewrite Hcl' in Hq2c.
    destruct (showCopyFeedback_view b q2 _ Hq2e Hq2t Hq2c) as (Hx & Hy & Hz).
    rewrite <- H2 in Hx, Hy, Hz.
    destruct (elapse_view ms _ _ Hx Hy Hz) as (Hfinal & _ & _).
    by rewrite Hy, Hfinal.
  - intros Hapi Hrej.
    assert (copy_throws env = true) as Hthrows
      by (unfold copy_throws; by rewrite Hapi, Hrej).
    assert (∀ t, copy_leak env t = []) as Hleak
      by (intros t; unfold copy_leak; by rewrite Hapi).
    pose proof (copyCode_found env b p c cb code Hc Hcb Hcode) as H1.
    rewrite Hthrows, Hleak, with_elements_app_nil in H1.
    destruct (showCopyError_twice p b e0 dt ms He Ht Hdt Hms)
      as (Htm & Hel & Hmid).
    destruct (showCopyError_view b
                (console_log LogError "Failed to copy code:" p) p
                eq_refl eq_refl eq_refl) as (Ha & Hb & Hcl).
    destruct (elapse_view dt _ _ Ha Hb Hcl) as (Ha' & Hb' & Hcl').
    rewrite <- H1 in Ha', Hb', Hcl'.
    set (p2 := elapse dt (copyCode env b p)) in *.
    assert (elements p2 = alter error_shown b (elements p)) as Hp2
      by (by rewrite Ha', Hmid).
    assert (closest "code-container" b (elements p2) = Some c) as Hc2
      by (by rewrite Hp2, closest_alter).
    assert (querySelector_tag_in c "code" (elements p2) = Some cb) as Hcb2
      by (by rewrite Hp2, querySelector_tag_in_alter).
    assert (is_Some (elements p2 !! cb)) as [code' Hcode'].
    { apply lookup_lt_is_Some. rewrite Hp2, length_alter.
      by eapply lookup_lt_Some. }
    pose proof (copyCode_found env b p2 c cb code' Hc2 Hcb2 Hcode') as H2.
    rewrite Hthrows, Hleak, with_elements_app_nil in H2.
    destruct (showCopyError_view b
                (console_log LogError "Failed to copy code:" p2)
                (elapse dt (showCopyError b p)) Ha' Hb' Hcl') as (Hx & Hy & Hz).
    rewrite <- H2 in Hx, Hy, Hz.
    destruct (elapse_view ms _ _ Hx Hy Hz) as (Hfinal & _ & _).
    by rewrite Hy, Hfinal.
Qed.

Lemma repeated_copy_leaks_witness :
  closest "code-container" 9 (elements (Sample.page 1024 "")) = Some 7 ∧
  querySelector_tag_in 7 "code" (elements (Sample.page 1024 "")) = Some 8 ∧
  elements (Sample.page 1024 "") !! 9 = Some (Sample.button "copy-btn" (Some 7)) ∧
  timers (Sample.page 1024 "") = [] ∧
  500 < 2000 ∧ 2000 ≤ 2000 ∧
  copy_throws Sample.env = false ∧
  elements
    (elapse 2000
       (copyCode Sample.env 9
          (elapse 500 (copyCode Sample.env 9 (Sample.page 1024 "")))))
  = <[9 := feedback_shown (Sample.button "copy-btn" (Some 7))]>
      (elements (Sample.page 1024 "")).
Proof.
  assert (500 < 2000) as Hdt by lia.
  assert (2000 ≤ 2000) as Hms by lia.
  destruct (repeated_copy_leaks Sample.env (Sample.page 1024 "") 9 7 8
              (mkElement "code" "" "" None "npm install" "npm install"
                 "npm install" "" "" (Some 7))
              (Sample.button "copy-btn" (Some 7)) 500 2000
              eq_refl eq_refl eq_refl eq_refl eq_refl Hdt Hms)
    as (Hok & _).
  destruct (Hok eq_refl) as [_ Hfinal].
  split_and!; [reflexivity..|exact Hdt|exact Hms|reflexivity|exact Hfinal].
Defined.

(** Two calls of [copyCode] on the copy button of the sample page, 500 ms
    apart.  When both windows have passed and no timer is left, the
    button still shows the check mark and carries [copied]; with the
    clipboard write rejected both times it keeps its class and shows the
    warning icon. *)
Lemma repeated_copy_leaves_copied_class :
  className <$> elements (Sample.page 1024 "") !! 9 = Some "copy-btn" ∧
  innerHTML <$> elements (Sample.page 1024 "") !! 9 = Some Sample.copy_icon ∧
  timers
    (elapse 2000
       (copyCode Sample.env 9
          (elapse 500 (copyCode Sample.env 9 (Sample.page 1024 ""))))) = [] ∧
  className <$>
    elements
      (elapse 2000
         (copyCode Sample.env 9
            (elapse 500 (copyCode Sample.env 9 (Sample.page 1024 ""))))) !! 9
  = Some "copy-btn copied copying" ∧
  innerHTML <$>
    elements
      (elapse 2000
         (copyCode Sample.env 9
            (elapse 500 (copyCode Sample.env 9 (Sample.page 1024 ""))))) !! 9
  = Some check_icon ∧
  timers
    (elapse 2000
       (copyCode Sample.no_clipboard 9
          (elapse 500 (copyCode Sample.no_clipboard 9 (Sample.page 1024 "")))))
  = [] ∧
  className <$>
    elements
      (elapse 2000
         (copyCode Sample.no_clipboard 9
            (elapse 500 (copyCode Sample.no_clipboard 9 (Sample.page 1024 "")))))
      !! 9
  = Some "copy-btn" ∧
  innerHTML <$>
    elements
      (elapse 2000
         (copyCode Sample.no_clipboard 9
            (elapse 500 (copyCode Sample.no_clipboard 9 (Sample.page 1024 "")))))
      !! 9
  = Some warning_icon.
Proof. split_and!; reflexivity. Qed.

(** * Lookups that find nothing *)

Lemma copyCode_no_code_block env b p c :
  closest "code-container" b (elements p) = Some c →
  querySelector_tag_in c "code" (elements p) = None →
  copyCode env b p = console_log LogError "Code block not found" p.
Proof. intros Hc Hq. unfold copyCode, copyCode_try. by rewrite Hc, Hq. Qed.

Lemma copyCode_no_container env b p e0 :
  elements p !! b = Some e0 →
  closest "code-container" b (elements p) = None →
  elements (copyCode env b p) !! b = Some (error_shown e0) ∧
  console (copyCode env b p) = console p ++ [(LogError, "Failed to copy code:")].
Proof.
  intros He Hc. unfold copyCode, copyCode_try. rewrite Hc.
  unfold showCopyError. simpl. rewrite He. simpl.
  by rewrite list_lookup_alter_eq, He.
Qed.

Lemma handleOutsideClick_no_sidebar target p :
  getElementById "sidebar" (elements p) = None →
  handleOutsideClick target p = Returns p.
Proof.
  intros Hsb. unfold handleOutsideClick. rewrite Hsb.
  by destruct (_ <=? _)%Z.
Qed.

Lemma handleOutsideClick_no_toggle target p sb :
  (innerWidth p <= 768)%Z →
  getElementById "sidebar" (elements p) = Some sb →
  node_contains sb target (elements p) = false →
  querySelector_class "menu-toggle" (elements p) = None →
  handleOutsideClick target p = Throws "TypeError" p.
Proof.
  intros Hw Hsb Hin Htb. unfold handleOutsideClick.
  apply Z.leb_le in Hw. by rewrite Hw, Hsb, Hin, Htb.
Qed.

(** C4, at the inputs where the code breaks it.  The second copy button
    of the sample page has no code container around it: [copyCode] logs
    the failure and puts the control into the error feedback.  On the page
    without its toggle control, a click outside the open sidebar makes
    [handleOutsideClick] throw, and the sidebar stays open. *)
Theorem copyCode_without_container_shows_error :
  closest "code-container" 11 (elements (Sample.page 1024 "")) = None ∧
  elements (copyCode Sample.env 11 (Sample.page 1024 "")) !! 11
  = Some (error_shown (Sample.button "copy-btn" (Some 10))) ∧
  console (copyCode Sample.env 11 (Sample.page 1024 ""))
  = [(LogError, "Failed to copy code:")] ∧
  timers (copyCode Sample.env 11 (Sample.page 1024 ""))
  = [(2000, RevertError 11 Sample.copy_icon "copy-btn")] ∧
  querySelector_class "menu-toggle"
    (elements (toggleSidebar (Sample.page_without_toggle 500))) = None ∧
  handleOutsideClick (Some 5) (toggleSidebar (Sample.page_without_toggle 500))
  = Throws "TypeError" (toggleSidebar (Sample.page_without_toggle 500)) ∧
  sidebar_open (toggleSidebar (Sample.page_without_toggle 500)) = true.
Proof. split_and!; reflexivity. Qed.

(** * The scroll spy *)

Section ScrollSpy.

Lemma forEach_cons f i refs (d : Document) :
  forEach f (i :: refs) d = forEach f refs (alter f i d).
Proof. reflexivity. Qed.

Lemma forEach_lookup_notin f refs (d : Document) j :
  j ∉ refs → forEach f refs d !! j = d !! j.
Proof.
  revert d. induction refs as [|i refs IH]; intros d Hj; [done|].
  apply not_elem_of_cons in Hj as [Hne Hj].
  rewrite forEach_cons, IH by done. by rewrite list_lookup_alter_ne.
Qed.

Lemma forEach_lookup_inv {A} (g : Element → A) f refs (d : Document) j :
  (∀ e, g (f e) = g e) → g <$> forEach f refs d !! j = g <$> d !! j.
Proof.
  intros Hg. revert d. induction refs as [|i refs IH]; intros d; [done|].
  rewrite forEach_cons, IH. destruct (decide (i = j)) as [->|Hne].
  - rewrite list_lookup_alter_eq. destruct (d !! j); [|done]. simpl.
    by rewrite Hg.
  - by rewrite list_lookup_alter_ne.
Qed.

Lemma forEach_lookup_in (P : Element → Prop) f refs (d : Document) j e :
  (∀ x, P (f x)) → j ∈ refs → forEach f refs d !! j = Some e → P e.
Proof.
  intros HP. revert d. induction refs as [|i refs IH]; intros d Hj He.
  - by apply elem_of_nil in Hj.
  - rewrite forEach_cons in He.
    destruct (decide (j ∈ refs)) as [Hin|Hnotin]; [by eapply IH|].
    apply elem_of_cons in Hj as [->|Hj]; [|done].
    rewrite forEach_lookup_notin, list_lookup_alter_eq in He by done.
    destruct (d !! i) as [x|]; [|done]. injection He as <-. apply HP.
Qed.


Lemma scrollSpy_entry_selected env spy e p sec nav :
  entry_selected e = true →
  elements p !! target e = Some sec →
  querySelector_onclick (css_query env) (id sec) (elements p)
  = Found (Some nav) →
  scrollSpy_entry env spy e p
  = Returns
      (update_hash env (id sec)
         (with_elements (alter (classList_add ["active"]) nav)
            (with_elements
               (forEach (classList_remove ["active"]) (spy_navItems spy)) p))).
Proof.
  intros Hsel Hsec Hnav. unfold scrollSpy_entry, update_hash.
  by rewrite Hsel, Hsec, Hnav.
Qed.

Lemma update_hash_fields env s p :
  location_hash (update_hash env s p)
  = (if has_replaceState env then Url.hash_for s else location_hash p) ∧
  history_length (update_hash env s p) = history_length p ∧
  scrollTo_calls (update_hash env s p) = scrollTo_calls p ∧
  body_overflow (update_hash env s p) = body_overflow p ∧
  timers (update_hash env s p) = timers p ∧
  clock (update_hash env s p) = clock p ∧
  body_class (update_hash env s p) = body_class p ∧
  console (update_hash env s p) = console p.
Proof.
  unfold update_hash. rewrite replaceState_hash.
  by destruct (has_replaceState env).
Qed.

End ScrollSpy.

Section Band.
Local Open Scope Q_scope.

Lemma overlap_positive lo hi top bottom c :
  0 <= c → c < overlap lo hi top bottom → Qmax lo top <= Qmin hi bottom.
Proof.
  unfold overlap. intros Hc Hlt.
  destruct (Q.max_spec 0 (Qmin hi bottom - Qmax lo top)) as [[H1 H2]|[H1 H2]];
    rewrite H2 in Hlt; lra.
Qed.


Lemma observe_selected vh top height tgt :
  0 < height →
  entry_selected (observe vh top height tgt) = true ↔
  height * (1 # 2)
  < overlap (root_top vh) (root_bottom vh) top (top + height).
Proof.
  intros Hh. unfold entry_selected, observe. cbn [isIntersecting intersectionRatio].
  assert (Qle_bool height 0 = false) as ->.
  { apply not_true_is_false. rewrite Qle_bool_iff. lra. }
  rewrite andb_true_iff, negb_true_iff.
  set (ov := overlap (root_top vh) (root_bottom vh) top (top + height)).
  split.
  - intros [_ Hratio]. apply not_true_iff_false in Hratio.
    rewrite Qle_bool_iff in Hratio. apply Qnot_le_lt. intros Hle.
    apply Hratio. apply Qle_shift_div_r; [done|]. lra.
  - intros Hlt. split.
    + apply Qle_bool_iff. apply (overlap_positive _ _ _ _ (height * (1 # 2))).
      * lra.
      * exact Hlt.
    + apply not_true_iff_false. rewrite Qle_bool_iff. apply Qlt_not_le.
      apply Qlt_shift_div_l; [done|]. lra.
Qed.

End Band.

Lemma first_onclick_containing_Some v (d : Document) j :
  first_onclick_containing v d = Some j → is_Some (d !! j).
Proof.
  unfold first_onclick_containing. case_decide; [done|].
  intros (_ & (e & He & _) & _)%find_from_Some.
  replace (j - 0) with j in He by lia. by exists e.
Qed.

(** What a selected entry with a matching element does to the page. *)
Lemma scrollSpy_marks env spy p sec nav :
  is_Some (elements p !! nav) →
  is_active nav
    (update_hash env (id sec)
       (with_elements (alter (classList_add ["active"]) nav)
          (with_elements
             (forEach (classList_remove ["active"]) (spy_navItems spy)) p)))
  = true ∧
  (∀ j, j ∈ spy_navItems spy → j ≠ nav →
        is_active j
          (update_hash env (id sec)
             (with_elements (alter (classList_add ["active"]) nav)
                (with_elements
                   (forEach (classList_remove ["active"]) (spy_navItems spy))
                   p))) = false) ∧
  (∀ j, j ∉ spy_navItems spy → j ≠ nav →
        elements
          (update_hash env (id sec)
             (with_elements (alter (classList_add ["active"]) nav)
                (with_elements
                   (forEach (classList_remove ["active"]) (spy_navItems spy))
                   p))) !! j
        = elements p !! j) ∧
  (∀ j, is_section j
          (update_hash env (id sec)
             (with_elements (alter (classList_add ["active"]) nav)
                (with_elements
                   (forEach (classList_remove ["active"]) (spy_navItems spy))
                   p)))
        = is_section j p).
Proof.
  intros [en Hen].
  unfold is_active, is_section. rewrite update_hash_elements. simpl.
  split_and!.
  - rewrite list_lookup_alter_eq.
    pose proof (forEach_lookup_inv id (classList_remove ["active"])
                  (spy_navItems spy) (elements p) nav
                  (id_classList_remove ["active"])) as Hsome.
    rewrite Hen in Hsome.
    destruct (forEach _ _ _ !! nav) as [x|]; [|discriminate Hsome]. simpl.
    rewrite has_class_activate.
    rewrite (bool_decide_eq_true_2 ("active" = "active")) by done.
    apply orb_true_r.
  - intros j Hj Hne.
    rewrite list_lookup_alter_ne by done.
    destruct (forEach _ _ _ !! j) as [x|] eqn:Hx; [|done]. simpl.
    apply (forEach_lookup_in (λ e, has_class "active" e = false)
             (classList_remove ["active"]) (spy_navItems spy) (elements p) j);
      [|done..].
    intros y. rewrite has_class_remove, elem_of_singleton_bool.
    rewrite (bool_decide_eq_true_2 ("active" = "active")) by done.
    apply andb_false_r.
  - intros j Hj Hne. rewrite list_lookup_alter_ne by done.
    by apply forEach_lookup_notin.
  - intros j.
    assert (has_class "content-section" <$>
              alter (classList_add ["active"]) nav
                (forEach (classList_remove ["active"]) (spy_navItems spy)
                   (elements p)) !! j
            = has_class "content-section" <$> elements p !! j) as Hsame.
    { rewrite <- (forEach_lookup_inv (has_class "content-section")
                    (classList_remove ["active"]) (spy_navItems spy)
                    (elements p) j).
      - destruct (decide (nav = j)) as [->|Hne].
        + rewrite list_lookup_alter_eq.
          destruct (forEach _ _ _ !! j); [|done]. simpl.
          by rewrite has_class_activate, orb_false_r.
        + by rewrite list_lookup_alter_ne.
      - intros x. rewrite has_class_remove, elem_of_singleton_bool.
        by rewrite andb_true_r. }
    destruct (alter _ _ _ !! j), (elements p !! j); simpl in *; congruence.
Qed.




(** * Further properties of the page script *)

(** ** [toggleSidebar] *)

Lemma getElementById_toggleSidebar i p :
  getElementById i (elements (toggleSidebar p)) = getElementById i (elements p).
Proof.
  unfold toggleSidebar.
  destruct (getElementById "sidebar" (elements p)) as [sb|] eqn:Hsb; [|done].
  simpl. destruct (alter _ _ _ !! sb) as [e|]; [|by apply getElementById_alter].
  destruct (has_class "open" e); simpl; by apply getElementById_alter.
Qed.

Lemma toggleSidebar_locks p sb :
  getElementById "sidebar" (elements p) = Some sb →
  scroll_locked (toggleSidebar p) = sidebar_open (toggleSidebar p).
Proof.
  intros Hsb. destruct (getElementById_Some _ _ _ Hsb) as (e & He & _).
  unfold toggleSidebar. rewrite Hsb. simpl.
  rewrite list_lookup_alter_eq, He. simpl.
  destruct (has_class "open" (classList_toggle "open" e)) eqn:Hopen.
  - change (true = sidebar_open
              (with_elements (alter (classList_toggle "open") sb) p)).
    by rewrite (sidebar_open_alter p sb e).
  - change (false = sidebar_open
              (with_elements (alter (classList_toggle "open") sb) p)).
    by rewrite (sidebar_open_alter p sb e).
Qed.

Lemma toggleSidebar_elements p sb :
  getElementById "sidebar" (elements p) = Some sb →
  elements (toggleSidebar p) = alter (classList_toggle "open") sb (elements p).
Proof.
  intros Hsb. unfold toggleSidebar. rewrite Hsb. simpl.
  destruct (alter _ _ _ !! sb) as [e|]; [|done].
  by destruct (has_class "open" e).
Qed.

(** With a sidebar on the page, [toggleSidebar] flips its open state and
    sets the scroll lock to the new open state, whatever the lock was
    before; no other element changes.  Without a sidebar it does nothing. *)
Theorem toggleSidebar_flips_and_locks p :
  (∀ sb, getElementById "sidebar" (elements p) = Some sb →
     sidebar_open (toggleSidebar p) = negb (sidebar_open p) ∧
     scroll_locked (toggleSidebar p) = sidebar_open (toggleSidebar p) ∧
     ∀ j, j ≠ sb → elements (toggleSidebar p) !! j = elements p !! j) ∧
  (getElementById "sidebar" (elements p) = None → toggleSidebar p = p).
Proof.
  split.
  - intros sb Hsb. split_and!.
    + by apply (toggleSidebar_flips p sb).
    + by apply (toggleSidebar_locks p sb).
    + intros j Hne. rewrite (toggleSidebar_elements p sb Hsb).
      by apply list_lookup_alter_ne.
  - intros Hnone. unfold toggleSidebar. by rewrite Hnone.
Qed.

Lemma toggleSidebar_flips_and_locks_witness :
  getElementById "sidebar" (elements (Sample.page 500 "")) = Some 0 ∧
  sidebar_open (toggleSidebar (Sample.page 500 "")) = true ∧
  scroll_locked (toggleSidebar (Sample.page 500 "")) = true.
Proof.
  destruct (toggleSidebar_flips_and_locks (Sample.page 500 "")) as [Hsome _].
  destruct (Hsome 0 eq_refl) as (Hflip & Hlock & _).
  split; [reflexivity|]. split; [exact Hflip|].
  rewrite Hlock. exact Hflip.
Defined.

(** Two calls of [toggleSidebar] bring the open state back, and leave the
    scroll locked exactly when the sidebar was open to begin with. *)
Theorem toggleSidebar_twice p sb :
  getElementById "sidebar" (elements p) = Some sb →
  sidebar_open (toggleSidebar (toggleSidebar p)) = sidebar_open p ∧
  scroll_locked (toggleSidebar (toggleSidebar p)) = sidebar_open p.
Proof.
  intros Hsb.
  assert (getElementById "sidebar" (elements (toggleSidebar p)) = Some sb)
    as Hsb' by (by rewrite getElementById_toggleSidebar).
  assert (sidebar_open (toggleSidebar (toggleSidebar p)) = sidebar_open p)
    as Hopen.
  { rewrite (toggleSidebar_flips _ sb Hsb'), (toggleSidebar_flips _ sb Hsb).
    apply negb_involutive. }
  split; [exact Hopen|].
  by rewrite (toggleSidebar_locks _ sb Hsb').
Qed.

Lemma toggleSidebar_twice_witness :
  getElementById "sidebar" (elements (Sample.page 500 "")) = Some 0 ∧
  sidebar_open (toggleSidebar (toggleSidebar (Sample.page 500 ""))) = false ∧
  scroll_locked (toggleSidebar (toggleSidebar (Sample.page 500 ""))) = false.
Proof.
  split; [reflexivity|].
  apply (toggleSidebar_twice (Sample.page 500 "") 0). reflexivity.
Defined.

(** ** [showSection] *)

Lemma showSection_at_only_class t el sb narrow j e :
  set_className "" (showSection_at t el sb narrow j e) = set_className "" e.
Proof.
  unfold showSection_at, deactivate_if.
  repeat (case_match; simpl); by destruct e.
Qed.

Lemma showSection_at_untouched t el sb narrow j e :
  has_class "content-section" e = false →
  has_class "nav-item" e = false →
  t ≠ Some j → el ≠ Some j → sb ≠ Some j →
  showSection_at t el sb narrow j e = e.
Proof.
  intros Hcs Hnav Ht Hel Hsb. unfold showSection_at, deactivate_if.
  rewrite Hcs. rewrite (decide_False (P := t = Some j)) by done.
  rewrite Hnav. rewrite (decide_False (P := el = Some j)) by done.
  rewrite (bool_decide_eq_false_2 (sb = Some j)) by done.
  by rewrite andb_false_r.
Qed.

(** [showSection] writes class attributes only: the store keeps its
    length, every element keeps its tag, id, [onclick], content, inline
    style and parent, and an element that is neither a section, a
    navigation item, the target, the element passed nor the sidebar is
    left exactly as it was. *)
Theorem showSection_writes_classes_only env s el p :
  length (elements (showSection env s el p)) = length (elements p) ∧
  (∀ j, set_className "" <$> elements (showSection env s el p) !! j
        = set_className "" <$> elements p !! j) ∧
  (∀ j, is_section j p = false → is_navItem j p = false →
        getElementById s (elements p) ≠ Some j → el ≠ Some j →
        getElementById "sidebar" (elements p) ≠ Some j →
        elements (showSection env s el p) !! j = elements p !! j).
Proof.
  assert (∀ j, set_className "" <$> elements (showSection env s el p) !! j
               = set_className "" <$> elements p !! j) as Hclass.
  { intros j. rewrite showSection_lookup.
    destruct (elements p !! j) as [e|]; [|done]. simpl.
    by rewrite showSection_at_only_class. }
  split_and!; [|exact Hclass|].
  - destruct (decide (length (elements (showSection env s el p))
                      = length (elements p))) as [|Hne]; [done|].
    exfalso.
    destruct (Nat.lt_ge_cases (length (elements p))
                (length (elements (showSection env s el p)))) as [Hlt|Hge].
    + pose proof (Hclass (length (elements p))) as H.
      rewrite (lookup_ge_None_2 (elements p)) in H by lia.
      destruct (lookup_lt_is_Some_2 _ _ Hlt) as [x Hx].
      rewrite Hx in H. discriminate H.
    + pose proof (Hclass (length (elements (showSection env s el p)))) as H.
      rewrite (lookup_ge_None_2 (elements (showSection env s el p))) in H by lia.
      assert (length (elements (showSection env s el p))
              < length (elements p)) as Hlt by lia.
      destruct (lookup_lt_is_Some_2 _ _ Hlt) as [x Hx].
      rewrite Hx in H. discriminate H.
  - intros j Hcs Hnav Ht Hel Hsb. rewrite showSection_lookup.
    unfold is_section, is_navItem in *.
    destruct (elements p !! j) as [e|]; [|done]. simpl in *.
    by rewrite showSection_at_untouched.
Qed.

(** On a narrow viewport [showSection] always leaves the sidebar closed;
    on a wide one it leaves the sidebar's open state as it was.  The
    scroll lock is never touched. *)
Theorem showSection_sidebar env s el p :
  sidebar_open (showSection env s el p)
  = sidebar_open p && negb (innerWidth p <=? 768)%Z ∧
  body_overflow (showSection env s el p) = body_overflow p.
Proof.
  split; [|apply showSection_body_overflow].
  unfold sidebar_open. rewrite getElementById_showSection.
  destruct (getElementById "sidebar" (elements p)) as [sb|] eqn:Hsb; [|done].
  rewrite showSection_lookup, Hsb.
  destruct (elements p !! sb) as [e|]; [|done]. simpl.
  rewrite has_class_showSection_at. simpl.
  rewrite (bool_decide_eq_true_2 (Some sb = Some sb)) by done.
  by rewrite andb_true_r.
Qed.

Lemma is_active_showSection_twice env a ela b elb p j e :
  elements p !! j = Some e →
  has_class "content-section" e || has_class "nav-item" e = true →
  is_active j (showSection env b elb (showSection env a ela p))
  = is_active j (showSection env b elb p).
Proof.
  intros He Hkind.
  pose proof (showSection_lookup env a ela p j) as Hlook. rewrite He in Hlook.
  simpl in Hlook.
  rewrite (is_active_showSection _ _ _ _ _ _ Hlook).
  rewrite (is_active_showSection _ _ _ _ _ _ He).
  rewrite getElementById_showSection, !has_class_showSection_at. simpl.
  destruct (has_class "content-section" e), (has_class "nav-item" e);
    try discriminate Hkind; simpl;
    rewrite ?andb_false_r, ?andb_true_r, ?orb_false_r; simpl; done.
Qed.

(** The last selection wins: selecting [a] and then [b] leaves every
    section and every navigation item as selecting [b] alone does. *)
Theorem showSection_last_wins env a ela b elb p j :
  is_section j p || is_navItem j p = true →
  is_active j (showSection env b elb (showSection env a ela p))
  = is_active j (showSection env b elb p) ∧
  location_hash (showSection env b elb (showSection env a ela p))
  = location_hash (showSection env b elb p).
Proof.
  intros Hkind. split.
  - unfold is_section, is_navItem in Hkind.
    destruct (elements p !! j) as [e|] eqn:He; [|done]. simpl in Hkind.
    by apply (is_active_showSection_twice env a ela b elb p j e).
  - rewrite !showSection_location_hash. by destruct (has_replaceState env).
Qed.

Lemma showSection_last_wins_witness :
  is_section 5 (Sample.page 1024 "") || is_navItem 5 (Sample.page 1024 "") = true ∧
  is_active 5
    (showSection Sample.env "api" (Some 2)
       (showSection Sample.env "intro" (Some 1) (Sample.page 1024 "")))
  = false ∧
  location_hash
    (showSection Sample.env "api" (Some 2)
       (showSection Sample.env "intro" (Some 1) (Sample.page 1024 "")))
  = "#api".
Proof.
  split; [reflexivity|].
  destruct (showSection_last_wins Sample.env "intro" (Some 1) "api" (Some 2)
              (Sample.page 1024 "") 5 eq_refl) as [Hact Hhash].
  split; [rewrite Hact; reflexivity | rewrite Hhash; reflexivity].
Defined.

(** A key that names any element, section or not, puts [active] on that
    element and asks for one scroll to the top; if that element is a
    navigation item the mark is taken off again unless it is also the
    element passed. *)
Theorem showSection_marks_named_element env s el p t :
  getElementById s (elements p) = Some t →
  is_active t (showSection env s el p)
  = negb (is_navItem t p) || bool_decide (el = Some t) ∧
  scrollTo_calls (showSection env s el p) = S (scrollTo_calls p).
Proof.
  intros Ht. destruct (getElementById_Some _ _ _ Ht) as (e & He & _). split.
  - rewrite (is_active_showSection _ _ _ _ _ _ He), Ht.
    rewrite (bool_decide_eq_true_2 (Some t = Some t)) by done.
    unfold is_navItem. rewrite He. simpl. by rewrite orb_true_r.
  - by rewrite showSection_scrollTo_calls, Ht.
Qed.

Lemma showSection_marks_named_element_witness :
  getElementById "sidebar" (elements (Sample.page 1024 "")) = Some 0 ∧
  is_section 0 (Sample.page 1024 "") = false ∧
  is_active 0 (showSection Sample.env "sidebar" None (Sample.page 1024 "")) = true ∧
  scrollTo_calls (showSection Sample.env "sidebar" None (Sample.page 1024 "")) = 1.
Proof.
  split; [reflexivity|]. split; [reflexivity|].
  destruct (showSection_marks_named_element Sample.env "sidebar" None
              (Sample.page 1024 "") 0 eq_refl) as [Hact Hscroll].
  split; [rewrite Hact; reflexivity | exact Hscroll].
Defined.

(** Called without an element, [showSection] leaves no navigation item
    active, whatever the key. *)
Theorem showSection_without_element env s p j :
  is_navItem j p = true → is_active j (showSection env s None p) = false.
Proof.
  intros Hnav. unfold is_navItem in Hnav.
  destruct (elements p !! j) as [e|] eqn:He; [|done]. simpl in Hnav.
  rewrite (is_active_showSection _ _ _ _ _ _ He), Hnav.
  rewrite (bool_decide_eq_false_2 (None = Some j)) by done.
  by rewrite andb_false_r.
Qed.

Lemma showSection_without_element_witness :
  is_navItem 1 (Sample.page 1024 "") = true ∧
  is_active 1 (Sample.page 1024 "") = true ∧
  is_active 1 (showSection Sample.env "intro" None (Sample.page 1024 "")) = false.
Proof.
  split; [reflexivity|]. split; [reflexivity|].
  apply (showSection_without_element Sample.env "intro" (Sample.page 1024 "") 1).
  reflexivity.
Defined.

(** ** [handleOutsideClick] and [handleKeyboardNavigation] *)

Lemma sidebar_open_lookup p sb e :
  getElementById "sidebar" (elements p) = Some sb →
  elements p !! sb = Some e →
  sidebar_open p = has_class "open" e.
Proof. intros Hsb He. unfold sidebar_open. by rewrite Hsb, He. Qed.

(** With the sidebar and the toggle control on the page,
    [handleOutsideClick] never throws.  It changes the page exactly when
    the viewport is narrow, the sidebar is open and the click lands
    outside both the sidebar and the toggle control; then it closes the
    sidebar, releases the scroll lock and changes nothing else. *)
Theorem handleOutsideClick_closes_when_outside target p sb tb :
  getElementById "sidebar" (elements p) = Some sb →
  querySelector_class "menu-toggle" (elements p) = Some tb →
  ((innerWidth p <= 768)%Z →
   node_contains sb target (elements p) = false →
   node_contains tb target (elements p) = false →
   sidebar_open p = true →
   ∃ p', handleOutsideClick target p = Returns p' ∧
         sidebar_open p' = false ∧ body_overflow p' = "" ∧
         (∀ j, j ≠ sb → elements p' !! j = elements p !! j) ∧
         location_hash p' = location_hash p) ∧
  ((768 < innerWidth p)%Z ∨
   node_contains sb target (elements p) = true ∨
   node_contains tb target (elements p) = true ∨
   sidebar_open p = false →
   handleOutsideClick target p = Returns p).
Proof.
  intros Hsb Htb. destruct (getElementById_Some _ _ _ Hsb) as (e & He & _).
  pose proof (sidebar_open_lookup p sb e Hsb He) as Hopen_eq.
  split.
  - intros Hw Hin_sb Hin_tb Hopen. rewrite Hopen_eq in Hopen.
    unfold handleOutsideClick.
    apply Z.leb_le in Hw. rewrite Hw, Hsb, Hin_sb, Htb, Hin_tb, He, Hopen.
    eexists. split; [reflexivity|].
    destruct (close_and_release p sb Hsb) as [Hclosed _].
    split_and!; [exact Hclosed|done| |done].
    intros j Hne. simpl. by apply list_lookup_alter_ne.
  - intros Hcase. unfold handleOutsideClick. rewrite Hsb, Htb, He.
    destruct (innerWidth p <=? 768)%Z eqn:Hw; [|done].
    destruct (node_contains sb target (elements p)) eqn:Hin_sb; [done|].
    destruct (node_contains tb target (elements p)) eqn:Hin_tb; [done|].
    destruct (has_class "open" e) eqn:Hopen; [|done].
    apply Z.leb_le in Hw.
    destruct Hcase as [Hwide|[Hc|[Hc|Hc]]]; [lia|done|done|congruence].
Qed.

Lemma handleOutsideClick_closes_when_outside_witness :
  getElementById "sidebar" (elements (toggleSidebar (Sample.page 500 ""))) = Some 0 ∧
  querySelector_class "menu-toggle" (elements (toggleSidebar (Sample.page 500 "")))
  = Some 4 ∧
  (∃ p', handleOutsideClick (Some 5) (toggleSidebar (Sample.page 500 ""))
         = Returns p' ∧ sidebar_open p' = false ∧ body_overflow p' = "") ∧
  handleOutsideClick (Some 2) (toggleSidebar (Sample.page 500 ""))
  = Returns (toggleSidebar (Sample.page 500 "")).
Proof.
  destruct (handleOutsideClick_closes_when_outside (Some 5)
              (toggleSidebar (Sample.page 500 "")) 0 4 eq_refl eq_refl)
    as [Hclose _].
  destruct (handleOutsideClick_closes_when_outside (Some 2)
              (toggleSidebar (Sample.page 500 "")) 0 4 eq_refl eq_refl)
    as [_ Hignore].
  assert (500 <= 768)%Z as Hw by lia.
  destruct (Hclose Hw eq_refl eq_refl eq_refl)
    as (p' & Hret & Hclosed & Hover & _).
  split; [reflexivity|]. split; [reflexivity|]. split.
  - exists p'. split_and!; done.
  - apply Hignore. right; left. reflexivity.
Defined.

(** [Escape] leaves the sidebar closed: an open sidebar is closed and the
    scroll lock released, a closed one is left with the page as it is.
    Any other key does nothing, except [m] or [M] with Alt held, which is
    [toggleSidebar]. *)
Theorem handleKeyboardNavigation_keys key altKey p :
  (key = "Escape" →
   sidebar_open (handleKeyboardNavigation key altKey p) = false ∧
   (sidebar_open p = true →
    body_overflow (handleKeyboardNavigation key altKey p) = "") ∧
   (sidebar_open p = false → handleKeyboardNavigation key altKey p = p)) ∧
  (key ≠ "Escape" →
   handleKeyboardNavigation key altKey p
   = if altKey && (bool_decide (key = "m") || bool_decide (key = "M"))
     then toggleSidebar p else p).
Proof.
  split.
  - intros ->. unfold handleKeyboardNavigation.
    rewrite (decide_True (P := "Escape" = "Escape")) by done.
    rewrite (bool_decide_eq_false_2 ("Escape" = "m")) by done.
    rewrite (bool_decide_eq_false_2 ("Escape" = "M")) by done.
    rewrite andb_false_r.
    destruct (getElementById "sidebar" (elements p)) as [sb|] eqn:Hsb.
    + destruct (getElementById_Some _ _ _ Hsb) as (e & He & _).
      rewrite (sidebar_open_lookup p sb e Hsb He), He.
      destruct (has_class "open" e) eqn:Hopen.
      * destruct (close_and_release p sb Hsb) as [Hclosed _].
        split_and!; [exact Hclosed|done|done].
      * split_and!; [|done|done].
        by rewrite (sidebar_open_lookup p sb e Hsb He).
    + rewrite (sidebar_open_absent p Hsb). done.
  - intros Hne. unfold handleKeyboardNavigation.
    by rewrite (decide_False (P := key = "Escape")).
Qed.

Lemma handleKeyboardNavigation_keys_witness :
  sidebar_open (toggleSidebar (Sample.page 500 "")) = true ∧
  sidebar_open
    (handleKeyboardNavigation "Escape" false (toggleSidebar (Sample.page 500 "")))
  = false ∧
  body_overflow
    (handleKeyboardNavigation "Escape" false (toggleSidebar (Sample.page 500 "")))
  = "" ∧
  handleKeyboardNavigation "M" true (Sample.page 500 "")
  = toggleSidebar (Sample.page 500 "").
Proof.
  destruct (handleKeyboardNavigation_keys "Escape" false
              (toggleSidebar (Sample.page 500 ""))) as [Hesc _].
  destruct (Hesc eq_refl) as (Hclosed & Hover & _).
  destruct (handleKeyboardNavigation_keys "M" true (Sample.page 500 ""))
    as [_ Hother].
  split; [reflexivity|]. split; [exact Hclosed|].
  split; [apply Hover; reflexivity|].
  rewrite Hother by discriminate. reflexivity.
Defined.

Lemma run_synchronized_witness :
  forallb (λ ev, negb (is_select ev))
    [Toggle; KeyDown "Escape" false; KeyDown "m" true; Click (Some 5);
     Toggle; Resize 1024] = true ∧
  synchronized (Sample.page 500 "") ∧
  synchronized
    (run Sample.env [Toggle; KeyDown "Escape" false; KeyDown "m" true;
                     Click (Some 5); Toggle; Resize 1024]
       (Sample.page 500 "")).
Proof.
  split; [reflexivity|]. split; [reflexivity|].
  apply (run_synchronized Sample.env); reflexivity.
Defined.

(** ** [copyCode] *)

Lemma showCopyFeedback_fields b p :
  clipboard (showCopyFeedback b p) = clipboard p ∧
  console (showCopyFeedback b p) = console p ∧
  location_hash (showCopyFeedback b p) = location_hash p ∧
  history_length (showCopyFeedback b p) = history_length p ∧
  body_overflow (showCopyFeedback b p) = body_overflow p ∧
  scrollTo_calls (showCopyFeedback b p) = scrollTo_calls p ∧
  innerWidth (showCopyFeedback b p) = innerWidth p.
Proof. unfold showCopyFeedback. by destruct (elements p !! b). Qed.

Lemma showCopyError_fields b p :
  clipboard (showCopyError b p) = clipboard p ∧
  console (showCopyError b p) = console p ∧
  location_hash (showCopyError b p) = location_hash p ∧
  history_length (showCopyError b p) = history_length p ∧
  body_overflow (showCopyError b p) = body_overflow p ∧
  scrollTo_calls (showCopyError b p) = scrollTo_calls p ∧
  innerWidth (showCopyError b p) = innerWidth p.
Proof. unfold showCopyError. by destruct (elements p !! b). Qed.

Lemma showCopyFeedback_elements b p :
  elements (showCopyFeedback b p) = alter feedback_shown b (elements p).
Proof.
  unfold showCopyFeedback. destruct (elements p !! b) eqn:He; [done|].
  symmetry. apply list_eq. intros i. destruct (decide (i = b)) as [->|Hne].
  - by rewrite list_lookup_alter_eq, He.
  - by rewrite list_lookup_alter_ne.
Qed.

Lemma showCopyError_elements b p :
  elements (showCopyError b p) = alter error_shown b (elements p).
Proof.
  unfold showCopyError. destruct (elements p !! b) eqn:He; [done|].
  symmetry. apply list_eq. intros i. destruct (decide (i = b)) as [->|Hne].
  - by rewrite list_lookup_alter_eq, He.
  - by rewrite list_lookup_alter_ne.
Qed.

(** When the control has a code container with a code block, the
    clipboard ends up holding the block's text (its [textContent], or its
    [innerText] when that is empty) exactly when the copy step lands;
    otherwise the clipboard is as before.  The control shows the error
    feedback, and one error is logged, exactly when the copy step throws;
    in every other case it shows the success feedback and nothing is
    logged. *)
Theorem copyCode_outcome env b p c cb code e0 :
  closest "code-container" b (elements p) = Some c →
  querySelector_tag_in c "code" (elements p) = Some cb →
  elements p !! cb = Some code →
  elements p !! b = Some e0 →
  clipboard (copyCode env b p)
  = (if copy_lands env then Some (code_text code) else clipboard p) ∧
  elements (copyCode env b p) !! b
  = Some (if copy_throws env then error_shown e0 else feedback_shown e0) ∧
  console (copyCode env b p)
  = console p ++ (if copy_throws env
                  then [(LogError, "Failed to copy code:")] else []).
Proof.
  intros Hc Hcb Hcode He.
  rewrite (copyCode_found env b p c cb code Hc Hcb Hcode).
  assert (copy_throws env = true → copy_lands env = false) as Hexcl.
  { unfold copy_throws, copy_lands. destruct (has_clipboard_api env).
    - by destruct (writeText_resolves env).
    - by destruct (execCommand_copy env). }
  destruct (copy_throws env) eqn:Hthrows.
  - rewrite (Hexcl eq_refl).
    destruct (showCopyError_fields b
                (console_log LogError "Failed to copy code:"
                   (with_elements
                      (λ d, d ++ copy_leak env (code_text code)) p)))
      as (-> & -> & _).
    rewrite showCopyError_elements. simpl.
    by rewrite list_lookup_alter_eq, (lookup_app_l_Some _ _ _ _ He).
  - set (q := if copy_lands env then set_clipboard (code_text code) p else p).
    destruct (showCopyFeedback_fields b q) as (-> & -> & _).
    rewrite showCopyFeedback_elements.
    assert (elements q = elements p) as -> by (unfold q; by destruct (copy_lands env)).
    rewrite list_lookup_alter_eq, He. unfold q.
    destruct (copy_lands env); simpl; by rewrite app_nil_r.
Qed.

Lemma copyCode_outcome_witness :
  closest "code-container" 9 (elements (Sample.page 1024 "")) = Some 7 ∧
  querySelector_tag_in 7 "code" (elements (Sample.page 1024 "")) = Some 8 ∧
  clipboard (copyCode Sample.env 9 (Sample.page 1024 "")) = Some "npm install" ∧
  clipboard (copyCode Sample.no_clipboard 9 (Sample.page 1024 "")) = None ∧
  console (copyCode Sample.no_clipboard 9 (Sample.page 1024 ""))
  = [(LogError, "Failed to copy code:")].
Proof.
  destruct (copyCode_outcome Sample.env 9 (Sample.page 1024 "") 7 8
              (mkElement "code" "" "" None "npm install" "npm install"
                 "npm install" "" "" (Some 7))
              (Sample.button "copy-btn" (Some 7))
              eq_refl eq_refl eq_refl eq_refl) as (Hclip & _ & _).
  destruct (copyCode_outcome Sample.no_clipboard 9 (Sample.page 1024 "") 7 8
              (mkElement "code" "" "" None "npm install" "npm install"
                 "npm install" "" "" (Some 7))
              (Sample.button "copy-btn" (Some 7))
              eq_refl eq_refl eq_refl eq_refl) as (Hclip' & _ & Hlog).
  split; [reflexivity|]. split; [reflexivity|].
  split; [exact Hclip|]. split; [exact Hclip' | exact Hlog].
Defined.

(** On a browser without the clipboard interface whose
    [execCommand('copy')] returns false, [copyCode] shows the success
    feedback although nothing was copied: the return value is not
    looked at. *)
Theorem copyCode_ignores_execCommand_result env b p c cb code e0 :
  has_clipboard_api env = false →
  execCommand_copy env = ExecFalse →
  closest "code-container" b (elements p) = Some c →
  querySelector_tag_in c "code" (elements p) = Some cb →
  elements p !! cb = Some code →
  elements p !! b = Some e0 →
  clipboard (copyCode env b p) = clipboard p ∧
  elements (copyCode env b p) !! b = Some (feedback_shown e0) ∧
  console (copyCode env b p) = console p.
Proof.
  intros Hapi Hexec Hc Hcb Hcode He.
  rewrite (copyCode_found env b p c cb code Hc Hcb Hcode).
  unfold copy_throws, copy_lands. rewrite Hapi, Hexec.
  destruct (showCopyFeedback_fields b p) as (-> & -> & _).
  rewrite showCopyFeedback_elements.
  by rewrite list_lookup_alter_eq, He.
Qed.

Lemma copyCode_ignores_execCommand_result_witness :
  clipboard (copyCode (mkEnv true false false ExecFalse true) 9
               (Sample.page 1024 "")) = None ∧
  elements (copyCode (mkEnv true false false ExecFalse true) 9
              (Sample.page 1024 "")) !! 9
  = Some (feedback_shown (Sample.button "copy-btn" (Some 7))).
Proof.
  destruct (copyCode_ignores_execCommand_result
              (mkEnv true false false ExecFalse true) 9 (Sample.page 1024 "")
              7 8
              (mkElement "code" "" "" None "npm install" "npm install"
                 "npm install" "" "" (Some 7))
              (Sample.button "copy-btn" (Some 7))
              eq_refl eq_refl eq_refl eq_refl eq_refl eq_refl)
    as (Hclip & Hshown & _).
  split; [exact Hclip | exact Hshown].
Defined.


(** On a browser without the clipboard interface whose copy command
    throws, two copies from the same control leave two text areas in the
    page. *)
Lemma copyCode_leaks_textarea :
  length (elements (Sample.page 1024 "")) = 12 ∧
  length (elements (copyCode (mkEnv true false false ExecThrows true) 9
                      (Sample.page 1024 ""))) = 13 ∧
  elements (copyCode (mkEnv true false false ExecThrows true) 9
              (Sample.page 1024 "")) !! 12
  = Some (fallback_textarea "npm install") ∧
  length (elements
            (elapse 2000
               (copyCode (mkEnv true false false ExecThrows true) 9
                  (elapse 2000
                     (copyCode (mkEnv true false false ExecThrows true) 9
                        (Sample.page 1024 "")))))) = 14.
Proof. split_and!; reflexivity. Qed.

(** ** The scroll-spy callback *)

Lemma length_forEach f refs (d : Document) :
  length (forEach f refs d) = length d.
Proof.
  revert d. induction refs as [|i refs IH]; intros d; [done|].
  by rewrite forEach_cons, IH, length_alter.
Qed.

Lemma getElementById_forEach i f refs (d : Document) :
  (∀ e, id (f e) = id e) →
  getElementById i (forEach f refs d) = getElementById i d.
Proof.
  intros Hid. revert d. induction refs as [|k refs IH]; intros d; [done|].
  by rewrite forEach_cons, IH, getElementById_alter.
Qed.

Lemma scrollSpy_entry_frame env spy e p :
  length (elements (page_of (scrollSpy_entry env spy e p)))
  = length (elements p) ∧
  (∀ j, set_className "" <$> elements (page_of (scrollSpy_entry env spy e p)) !! j
        = set_className "" <$> elements p !! j) ∧
  (∀ j, is_section j (page_of (scrollSpy_entry env spy e p)) = is_section j p) ∧
  (∀ j, is_navItem j (page_of (scrollSpy_entry env spy e p)) = is_navItem j p) ∧
  sidebar_open (page_of (scrollSpy_entry env spy e p)) = sidebar_open p ∧
  history_length (page_of (scrollSpy_entry env spy e p)) = history_length p ∧
  scrollTo_calls (page_of (scrollSpy_entry env spy e p)) = scrollTo_calls p ∧
  body_overflow (page_of (scrollSpy_entry env spy e p)) = body_overflow p ∧
  timers (page_of (scrollSpy_entry env spy e p)) = timers p.
Proof.
  assert (∀ (A : Type) (g : Element → A) nav j,
    (∀ x, g (classList_add ["active"] x) = g x) →
    (∀ x, g (classList_remove ["active"] x) = g x) →
    g <$> alter (classList_add ["active"]) nav
            (forEach (classList_remove ["active"]) (spy_navItems spy)
               (elements p)) !! j
    = g <$> elements p !! j) as Hinv.
  { intros A g nav j Hadd Hrem.
    rewrite <- (forEach_lookup_inv g (classList_remove ["active"])
                  (spy_navItems spy) (elements p) j Hrem).
    destruct (decide (nav = j)) as [->|Hne].
    - rewrite list_lookup_alter_eq. destruct (forEach _ _ _ !! j); [|done].
      simpl. by rewrite Hadd.
    - by rewrite list_lookup_alter_ne. }
  assert (∀ c, c ≠ "active" →
            (∀ x, has_class c (classList_add ["active"] x) = has_class c x) ∧
            (∀ x, has_class c (classList_remove ["active"] x) = has_class c x))
    as Hcls.
  { intros c Hc. split; intros x.
    - rewrite has_class_activate.
      rewrite (bool_decide_eq_false_2 (c = "active")) by done.
      apply orb_false_r.
    - rewrite has_class_remove, elem_of_singleton_bool.
      rewrite (bool_decide_eq_false_2 (c = "active")) by done.
      apply andb_true_r. }
  unfold scrollSpy_entry.
  destruct (entry_selected e); [|done].
  destruct (elements p !! target e) as [sec|]; [|done].
  destruct (querySelector_onclick _ (id sec) (elements p)) as [[nav|]|];
    [|done|done].
  cbn [page_of].
  set (d' := alter (classList_add ["active"]) nav
               (forEach (classList_remove ["active"]) (spy_navItems spy)
                  (elements p))).
  assert (length d' = length (elements p)) as Hlen.
  { unfold d'. by rewrite length_alter, length_forEach. }
  assert (∀ r, elements r = d' → history_length r = history_length p →
               scrollTo_calls r = scrollTo_calls p →
               body_overflow r = body_overflow p → timers r = timers p →
    length (elements r) = length (elements p) ∧
    (∀ j, set_className "" <$> elements r !! j
          = set_className "" <$> elements p !! j) ∧
    (∀ j, is_section j r = is_section j p) ∧
    (∀ j, is_navItem j r = is_navItem j p) ∧
    sidebar_open r = sidebar_open p ∧
    history_length r = history_length p ∧
    scrollTo_calls r = scrollTo_calls p ∧
    body_overflow r = body_overflow p ∧
    timers r = timers p) as Hall.
  { intros r Hel Hh Hs Ho Ht.
    assert (∀ c j, c ≠ "active" →
              from_option (has_class c) false (elements r !! j)
              = from_option (has_class c) false (elements p !! j)) as Hkeep.
    { intros c j Hc. destruct (Hcls c Hc) as [Hadd Hrem].
      pose proof (Hinv bool (has_class c) nav j Hadd Hrem) as H.
      rewrite Hel. fold d' in H.
      destruct (d' !! j), (elements p !! j); simpl in *; congruence. }
    split_and!; try done.
    - by rewrite Hel.
    - intros j. rewrite Hel. by apply Hinv.
    - intros j. by apply Hkeep.
    - intros j. by apply Hkeep.
    - unfold sidebar_open. rewrite Hel. unfold d'.
      rewrite getElementById_alter by done.
      rewrite getElementById_forEach by done.
      destruct (getElementById "sidebar" (elements p)) as [sb|]; [|done].
      pose proof (Hkeep "open" sb) as H. rewrite Hel in H. by apply H. }
  fold (update_hash env (id sec)
          (with_elements (alter (classList_add ["active"]) nav)
             (with_elements
                (forEach (classList_remove ["active"]) (spy_navItems spy)) p))).
  destruct (update_hash_fields env (id sec)
              (with_elements (alter (classList_add ["active"]) nav)
                 (with_elements
                    (forEach (classList_remove ["active"]) (spy_navItems spy))
                    p)))
    as (_ & Hh & Hs & Ho & Ht & _).
  apply Hall; try done. by rewrite update_hash_elements.
Qed.

Lemma scrollSpy_forEach_frame env spy entries p :
  length (elements (page_of (scrollSpy_forEach env spy entries p)))
  = length (elements p) ∧
  (∀ j, set_className ""
          <$> elements (page_of (scrollSpy_forEach env spy entries p)) !! j
        = set_className "" <$> elements p !! j) ∧
  (∀ j, is_section j (page_of (scrollSpy_forEach env spy entries p))
        = is_section j p) ∧
  (∀ j, is_navItem j (page_of (scrollSpy_forEach env spy entries p))
        = is_navItem j p) ∧
  sidebar_open (page_of (scrollSpy_forEach env spy entries p)) = sidebar_open p ∧
  history_length (page_of (scrollSpy_forEach env spy entries p))
  = history_length p ∧
  scrollTo_calls (page_of (scrollSpy_forEach env spy entries p))
  = scrollTo_calls p ∧
  body_overflow (page_of (scrollSpy_forEach env spy entries p))
  = body_overflow p ∧
  timers (page_of (scrollSpy_forEach env spy entries p)) = timers p.
Proof.
  revert p. induction entries as [|e entries IH]; intros p; [done|].
  cbn [scrollSpy_forEach].
  pose proof (scrollSpy_entry_frame env spy e p) as He.
  destruct (scrollSpy_entry env spy e p) as [p'|err p']; cbn [page_of] in He.
  - destruct (IH p') as (-> & Hc & Hs & Hn & -> & -> & -> & -> & ->).
    destruct He as (-> & Hc' & Hs' & Hn' & -> & -> & -> & -> & ->).
    split_and!; try done.
    + intros j. by rewrite Hc, Hc'.
    + intros j. by rewrite Hs, Hs'.
    + intros j. by rewrite Hn, Hn'.
  - exact He.
Qed.

(** Whatever entries the observer delivers, the scroll-spy callback
    writes class attributes only and keeps every element a section or a
    navigation item as it was; it never moves the sidebar, the scroll
    lock or the scroll position, adds no history entry and sets no
    timer. *)
Theorem scrollSpy_callback_frame env spy entries p :
  length (elements (scrollSpy_callback env spy entries p)) = length (elements p) ∧
  (∀ j, set_className "" <$> elements (scrollSpy_callback env spy entries p) !! j
        = set_className "" <$> elements p !! j) ∧
  (∀ j, is_section j (scrollSpy_callback env spy entries p) = is_section j p) ∧
  (∀ j, is_navItem j (scrollSpy_callback env spy entries p) = is_navItem j p) ∧
  sidebar_open (scrollSpy_callback env spy entries p) = sidebar_open p ∧
  history_length (scrollSpy_callback env spy entries p) = history_length p ∧
  scrollTo_calls (scrollSpy_callback env spy entries p) = scrollTo_calls p ∧
  body_overflow (scrollSpy_callback env spy entries p) = body_overflow p ∧
  timers (scrollSpy_callback env spy entries p) = timers p.
Proof.
  unfold scrollSpy_callback.
  pose proof (scrollSpy_forEach_frame env spy entries p) as H.
  destruct (scrollSpy_forEach env spy entries p) as [p'|err p'];
    cbn [page_of report] in *; [exact H|].
  unfold is_section, is_navItem, sidebar_open in *. exact H.
Qed.

Lemma elem_of_querySelectorAll_class c (d : Document) j :
  j ∈ querySelectorAll_class c d ↔ from_option (has_class c) false (d !! j) = true.
Proof.
  unfold querySelectorAll_class. rewrite elem_of_all_from.
  replace (j - 0) with j by lia. split.
  - intros (_ & e & -> & He). done.
  - intros H. split; [lia|]. destruct (d !! j) as [e|]; [|done].
    by exists e.
Qed.

(** With the observer set up on the page it runs on, an entry taken as
    currently read, for a section whose id has no character special in a
    CSS string and is contained in some [onclick], leaves the first
    element with such an [onclick] active and every other navigation item
    inactive, and an element that is neither that one nor a navigation
    item keeps its [active] mark as it was: shown sections stay shown,
    hidden ones hidden. *)
Theorem scrollSpy_entry_one_active_navItem env e p sec nav :
  entry_selected e = true →
  elements p !! target e = Some sec →
  css_plain (id sec) = true →
  first_onclick_containing (id sec) (elements p) = Some nav →
  ∃ q, scrollSpy_entry env (initScrollSpy p) e p = Returns q ∧
       is_active nav q = true ∧
       (∀ j, is_navItem j p = true → j ≠ nav → is_active j q = false) ∧
       (∀ j, is_navItem j p = false → j ≠ nav →
             is_active j q = is_active j p).
Proof.
  intros Hsel Hsec Hplain Hnav.
  assert (querySelector_onclick (css_query env) (id sec) (elements p)
          = Found (Some nav)) as Hq.
  { unfold querySelector_onclick. by rewrite Hplain, Hnav. }
  rewrite (scrollSpy_entry_selected env (initScrollSpy p) e p sec nav
             Hsel Hsec Hq).
  eexists. split; [reflexivity|].
  destruct (scrollSpy_marks env (initScrollSpy p) p sec nav
              (first_onclick_containing_Some _ _ _ Hnav))
    as (Hact & Hothers & Hrest & _).
  split; [exact Hact|]. split.
  - intros j Hj Hne. apply Hothers; [|done].
    cbn [initScrollSpy spy_navItems].
    by apply elem_of_querySelectorAll_class.
  - intros j Hj Hne. unfold is_active at 1 2. rewrite Hrest; [done| |done].
    cbn [initScrollSpy spy_navItems].
    rewrite elem_of_querySelectorAll_class. unfold is_navItem in Hj.
    by rewrite Hj.
Qed.

Lemma scrollSpy_entry_one_active_navItem_witness :
  entry_selected (observe 1000 200 100 6) = true ∧
  css_plain "api" = true ∧
  first_onclick_containing "api" (elements (Sample.page 1024 "")) = Some 2 ∧
  ∃ q, scrollSpy_entry Sample.env (initScrollSpy (Sample.page 1024 ""))
         (observe 1000 200 100 6) (Sample.page 1024 "") = Returns q ∧
       is_active 2 q = true ∧ is_active 1 q = false ∧ is_active 5 q = true.
Proof.
  destruct (scrollSpy_entry_one_active_navItem Sample.env
              (observe 1000 200 100 6) (Sample.page 1024 "")
              (Sample.el "section" "api" "content-section" None None) 2
              eq_refl eq_refl eq_refl eq_refl)
    as (q & Hq & Hnav & Hothers & Hrest).
  split; [reflexivity|]. split; [reflexivity|]. split; [reflexivity|].
  exists q. split; [exact Hq|]. split; [exact Hnav|]. split.
  - apply Hothers; [reflexivity|discriminate].
  - rewrite Hrest; [reflexivity|reflexivity|discriminate].
Defined.

(** ** Reloading the page on the hash a selection wrote *)

Lemma first_onclick_containing_fmap v g (d : Document) :
  (∀ e, onclick (g e) = onclick e) →
  first_onclick_containing v (g <$> d) = first_onclick_containing v d.
Proof.
  intros Hg. unfold first_onclick_containing. case_decide; [done|].
  rewrite find_from_fmap. apply find_from_ext. intros _ e. by rewrite Hg.
Qed.

Lemma first_onclick_containing_alter_at v f r (d : Document) :
  (∀ e, onclick (f e) = onclick e) →
  first_onclick_containing v (alter_at f r d) = first_onclick_containing v d.
Proof.
  intros Hf. destruct r as [k|]; [|done]. unfold first_onclick_containing.
  case_decide; [done|]. apply find_from_alter. intros _ e. by rewrite Hf.
Qed.

Lemma onclick_deactivate_if c e : onclick (deactivate_if c e) = onclick e.
Proof. unfold deactivate_if. by destruct (has_class c e). Qed.

Lemma first_onclick_containing_showSection v env s el p :
  first_onclick_containing v (elements (showSection env s el p))
  = first_onclick_containing v (elements p).
Proof.
  unfold showSection.
  rewrite update_hash_elements, close_sidebar_on_mobile_elements.
  assert (first_onclick_containing v
            (elements (update_nav el (show_target s (hide_sections p))))
          = first_onclick_containing v (elements p)) as Hsame.
  { rewrite update_nav_elements, show_target_elements, !hide_sections_elements.
    rewrite first_onclick_containing_alter_at by done.
    rewrite first_onclick_containing_fmap by apply onclick_deactivate_if.
    rewrite first_onclick_containing_alter_at by done.
    by rewrite first_onclick_containing_fmap by apply onclick_deactivate_if. }
  destruct (_ <=? _)%Z; [|done].
  by rewrite first_onclick_containing_alter_at.
Qed.

(** The hash a selection writes is one the initial load reads back, for a
    key the URL parser takes over as it is and that has no character
    special in a CSS string: after [showSection] for such a key, not
    empty, that some [onclick] contains, a reload selects the same key
    with the first element whose [onclick] contains it, and every section
    and navigation item ends as if that selection had been made on the
    page directly. *)
Theorem hash_reloads_selection env s el p q :
  has_replaceState env = true →
  s ≠ "" →
  Url.plain s = true →
  css_plain s = true →
  first_onclick_containing s (elements p) = Some q →
  handleInitialLoad env (showSection env s el p)
  = Returns (showSection env s (Some q) (showSection env s el p)) ∧
  (∀ j, is_section j p || is_navItem j p = true →
        is_active j (page_of (handleInitialLoad env (showSection env s el p)))
        = is_active j (showSection env s (Some q) p)) ∧
  location_hash (page_of (handleInitialLoad env (showSection env s el p)))
  = "#" +:+ s.
Proof.
  intros Hrs Hs Hurl Hcss Hq.
  assert (substring1 (location_hash (showSection env s el p)) = s) as Hhash.
  { rewrite showSection_location_hash, Hrs.
    by apply substring1_hash_for_plain. }
  assert (handleInitialLoad env (showSection env s el p)
          = Returns (showSection env s (Some q) (showSection env s el p)))
    as Heq.
  { rewrite handleInitialLoad_plain by (by rewrite Hhash).
    by rewrite Hhash, first_onclick_containing_showSection, Hq. }
  rewrite Heq. cbn [page_of]. split_and!; [done| |].
  - intros j Hkind. unfold is_section, is_navItem in Hkind.
    destruct (elements p !! j) as [e|] eqn:He; [|done]. simpl in Hkind.
    by apply (is_active_showSection_twice env s el s (Some q) p j e).
  - rewrite showSection_location_hash, Hrs. by apply hash_for_plain.
Qed.

Lemma hash_reloads_selection_witness :
  has_replaceState Sample.env = true ∧ "faq" ≠ "" ∧
  Url.plain "faq" = true ∧ css_plain "faq" = true ∧
  first_onclick_containing "faq" (elements (Sample.page 1024 "")) = Some 3 ∧
  handleInitialLoad Sample.env
    (showSection Sample.env "faq" (Some 3) (Sample.page 1024 ""))
  = Returns
      (showSection Sample.env "faq" (Some 3)
         (showSection Sample.env "faq" (Some 3) (Sample.page 1024 ""))) ∧
  is_active 10
    (page_of
       (handleInitialLoad Sample.env
          (showSection Sample.env "faq" (Some 3) (Sample.page 1024 ""))))
  = true.
Proof.
  assert ("faq" ≠ "") as Hne by discriminate.
  destruct (hash_reloads_selection Sample.env "faq" (Some 3)
              (Sample.page 1024 "") 3 eq_refl Hne eq_refl eq_refl eq_refl)
    as (Heq & Hact & _).
  split; [reflexivity|]. split; [exact Hne|]. split; [reflexivity|].
  split; [reflexivity|]. split; [reflexivity|].
  split; [exact Heq|]. rewrite Hact; reflexivity.
Defined.

(** A key with a space does not come back: the hash written for it holds
    the space percent-encoded, and a reload looks for an [onclick]
    containing that text. *)
Lemma hash_with_space_is_not_read_back :
  first_onclick_containing "api', this"
    (elements (Sample.page 1024 "")) = Some 2 ∧
  location_hash (showSection Sample.env "api', this" (Some 2)
                   (Sample.page 1024 "")) = "#api',%20this" ∧
  handleInitialLoad Sample.env
    (showSection Sample.env "api', this" (Some 2) (Sample.page 1024 ""))
  = Returns (showSection Sample.env "api', this" (Some 2) (Sample.page 1024 "")).
Proof. split_and!; reflexivity. Qed.

(** ** The [DOMContentLoaded] listener *)

Lemma showSection_clock_body_class env s el p :
  clock (showSection env s el p) = clock p ∧
  body_class (showSection env s el p) = body_class p.
Proof.
  unfold showSection, update_hash, close_sidebar_on_mobile, update_nav,
    show_target, hide_sections. rewrite replaceState_hash.
  repeat (case_match; simpl); done.
Qed.

Lemma handleInitialLoad_timers env p :
  timers (page_of (handleInitialLoad env p)) = timers p ∧
  clock (page_of (handleInitialLoad env p)) = clock p ∧
  body_class (page_of (handleInitialLoad env p)) = body_class p.
Proof.
  unfold handleInitialLoad. case_decide; [done|].
  destruct (querySelector_onclick _ _ _) as [[q|]|]; [|done|done].
  cbn [page_of].
  destruct (showSection_console_timers env
              (substring1 (location_hash p)) (Some q) p) as (_ & -> & _).
  by destruct (showSection_clock_body_class env
                 (substring1 (location_hash p)) (Some q) p) as [-> ->].
Qed.

Lemma scrollSpy_callback_clock env spy entries p :
  timers (scrollSpy_callback env spy entries p) = timers p ∧
  clock (scrollSpy_callback env spy entries p) = clock p ∧
  body_class (scrollSpy_callback env spy entries p) = body_class p.
Proof.
  assert (∀ e q, timers (page_of (scrollSpy_entry env spy e q)) = timers q ∧
                 clock (page_of (scrollSpy_entry env spy e q)) = clock q ∧
                 body_class (page_of (scrollSpy_entry env spy e q))
                 = body_class q) as Hentry.
  { intros e q. unfold scrollSpy_entry.
    destruct (entry_selected e); [|done].
    destruct (elements q !! target e) as [sec|]; [|done].
    destruct (querySelector_onclick _ _ _) as [[nav|]|]; [|done|done].
    cbn [page_of].
    fold (update_hash env (id sec)
            (with_elements (alter (classList_add ["active"]) nav)
               (with_elements
                  (forEach (classList_remove ["active"]) (spy_navItems spy))
                  q))).
    by destruct (update_hash_fields env (id sec)
                   (with_elements (alter (classList_add ["active"]) nav)
                      (with_elements
                         (forEach (classList_remove ["active"])
                            (spy_navItems spy)) q)))
      as (_ & _ & _ & _ & -> & -> & -> & _). }
  assert (timers (page_of (scrollSpy_forEach env spy entries p)) = timers p ∧
          clock (page_of (scrollSpy_forEach env spy entries p)) = clock p ∧
          body_class (page_of (scrollSpy_forEach env spy entries p))
          = body_class p) as Hloop.
  { revert p. induction entries as [|e entries IH]; intros p; [done|].
    cbn [scrollSpy_forEach]. pose proof (Hentry e p) as He.
    destruct (scrollSpy_entry env spy e p) as [p'|err p']; cbn [page_of] in He.
    - destruct (IH p') as (-> & -> & ->). exact He.
    - exact He. }
  unfold scrollSpy_callback.
  by destruct (scrollSpy_forEach env spy entries p).
Qed.

Lemma animation_callback_clock entries p :
  timers (animation_callback entries p) = timers p ∧
  clock (animation_callback entries p) = clock p ∧
  body_class (animation_callback entries p) = body_class p.
Proof.
  unfold animation_callback. revert p.
  induction entries as [|a entries IH]; intros p; [done|].
  simpl. destruct (IH (animation_entry a p)) as (-> & -> & ->).
  unfold animation_entry. by destruct (appears a).
Qed.

Lemma deliver_all_clock env obs ds p :
  timers (deliver_all env obs ds p) = timers p ∧
  clock (deliver_all env obs ds p) = clock p ∧
  body_class (deliver_all env obs ds p) = body_class p.
Proof.
  destruct obs as [o|]; [|done]. cbn [deliver_all]. revert p.
  induction ds as [|d ds IH]; intros p; [done|].
  simpl. destruct (IH (deliver env o d p)) as (-> & -> & ->).
  destruct d as [entries|entries]; cbn [deliver].
  - apply scrollSpy_callback_clock.
  - apply animation_callback_clock.
Qed.

(** With no timer pending when the page loads: when the listener runs to
    its end, the body gets the class [loaded] once 100 ms have passed and
    not before, whatever the two observers deliver in between; when the
    initial load throws, no timer is set and the body is never marked. *)
Theorem body_marked_loaded env p ds ms :
  timers p = [] →
  match onDOMContentLoaded env p with
  | (Returns q, obs) =>
      (100 ≤ ms →
       DomTokenList.contains "loaded"
         (body_class (elapse ms (deliver_all env obs ds q))) = true) ∧
      (ms < 100 →
       body_class (elapse ms (deliver_all env obs ds q)) = body_class p)
  | (Throws _ q, _) =>
      handleInitialLoad env p = Throws "SyntaxError" q ∧
      elapse ms q = set_clock_timers (clock q + ms) [] q ∧
      body_class (elapse ms q) = body_class p
  end.
Proof.
  intros Ht.
  destruct (handleInitialLoad_timers env p) as (Htm & Hck & Hbc).
  rewrite Ht in Htm. unfold onDOMContentLoaded.
  destruct (handleInitialLoad env p) as [p'|err p'] eqn:Hload;
    cbn [page_of] in *.
  - set (obs := if has_IntersectionObserver env then _ else _).
    set (q := console_log _ _ _).
    destruct (deliver_all_clock env obs ds q) as (Htq & Hcq & Hbq).
    assert (timers (deliver_all env obs ds q) = [(clock p + 100, MarkLoaded)])
      as Htimers.
    { rewrite Htq. unfold q, setTimeout. simpl. by rewrite Htm, Hck. }
    assert (clock (deliver_all env obs ds q) = clock p) as Hclock.
    { rewrite Hcq. unfold q, setTimeout. simpl. exact Hck. }
    assert (body_class (deliver_all env obs ds q) = body_class p) as Hbody.
    { rewrite Hbq. unfold q, setTimeout. simpl. exact Hbc. }
    split.
    + intros Hms.
      rewrite (elapse_one_due ms _ _ _ Htimers) by (rewrite Hclock; lia).
      simpl. rewrite contains_add by (by repeat constructor).
      rewrite (bool_decide_eq_true_2 ("loaded" ∈ ["loaded"])) by (by left).
      apply orb_true_r.
    + intros Hms.
      rewrite (elapse_none_due ms _ _ _ Htimers) by (rewrite Hclock; lia).
      simpl. exact Hbody.
  - assert (err = "SyntaxError") as ->.
    { unfold handleInitialLoad in Hload. case_decide; [done|].
      destruct (querySelector_onclick _ _ _) as [[?|]|]; congruence. }
    assert (elapse ms p' = set_clock_timers (clock p' + ms) [] p') as Hel.
    { unfold elapse. by rewrite Htm. }
    split; [done|]. split; [exact Hel|]. by rewrite Hel.
Qed.

Lemma body_marked_loaded_witness :
  timers (Sample.page 1024 "#api") = [] ∧ 100 ≤ 100 ∧ 99 < 100 ∧
  ∃ q obs,
    onDOMContentLoaded Sample.env (Sample.page 1024 "#api") = (Returns q, obs) ∧
    DomTokenList.contains "loaded"
      (body_class
         (elapse 100
            (deliver_all Sample.env obs
               [AnimationEntries [mkAppearance true 7 "0.25s"];
                SpyEntries [observe 1000 200 100 10]] q))) = true ∧
    body_class
      (elapse 99
         (deliver_all Sample.env obs
            [AnimationEntries [mkAppearance true 7 "0.25s"];
             SpyEntries [observe 1000 200 100 10]] q)) = "".
Proof.
  assert (100 ≤ 100) as Hge by lia.
  assert (99 < 100) as Hlt by lia.
  pose proof (body_marked_loaded Sample.env (Sample.page 1024 "#api")
                [AnimationEntries [mkAppearance true 7 "0.25s"];
                 SpyEntries [observe 1000 200 100 10]] 100 eq_refl) as H100.
  pose proof (body_marked_loaded Sample.env (Sample.page 1024 "#api")
                [AnimationEntries [mkAppearance true 7 "0.25s"];
                 SpyEntries [observe 1000 200 100 10]] 99 eq_refl) as H99.
  destruct (onDOMContentLoaded Sample.env (Sample.page 1024 "#api"))
    as [[q|err q] obs] eqn:Hload; [|discriminate Hload].
  split; [reflexivity|]. split; [exact Hge|]. split; [exact Hlt|].
  exists q, obs. split; [reflexivity|].
  split; [exact (proj1 H100 Hge) | exact (proj2 H99 Hlt)].
Defined.

(** What the observers do to the page between the load and the mark: an
    appearing code container gets its delay and the class [animate-in],
    and the scroll spy moves the active navigation item. *)
Lemma observers_write_elements :
  initAnimationObserver (Sample.page 1024 "") = [7] ∧
  (λ e, (className e, style_animationDelay e))
    <$> elements
          (animation_callback [mkAppearance true 7 "0.25s"]
             (Sample.page 1024 "")) !! 7
  = Some ("code-container animate-in", "0.25s") ∧
  animation_callback [mkAppearance false 7 "0.25s"] (Sample.page 1024 "")
  = Sample.page 1024 "".
Proof. split_and!; reflexivity. Qed.

(** A hash without characters special in a CSS string that some
    [onclick] contains but that names no element still sets off a
    selection on load: every section loses its [active] mark (unless it
    is the very element whose [onclick] matched), so the page shows no
    section, and the matched element is marked active. *)
Theorem handleInitialLoad_unnamed_hash_hides_sections env p q :
  substring1 (location_hash p) ≠ "" →
  css_plain (substring1 (location_hash p)) = true →
  first_onclick_containing (substring1 (location_hash p)) (elements p)
  = Some q →
  getElementById (substring1 (location_hash p)) (elements p) = None →
  ∃ p', handleInitialLoad env p = Returns p' ∧
        (∀ j, is_section j p = true → j ≠ q → is_active j p' = false) ∧
        is_active q p' = true ∧
        scrollTo_calls p' = scrollTo_calls p.
Proof.
  intros Hne Hplain Hq Hnone.
  rewrite (handleInitialLoad_plain env p Hplain), Hq.
  eexists. split; [reflexivity|].
  split_and!.
  - intros j Hsec Hj. unfold is_section in Hsec.
    destruct (elements p !! j) as [e|] eqn:He; [|done]. simpl in Hsec.
    rewrite (is_active_showSection _ _ _ _ _ _ He), Hnone, Hsec.
    rewrite (bool_decide_eq_false_2 (None = Some j)) by done.
    rewrite (bool_decide_eq_false_2 (Some q = Some j)) by congruence.
    by rewrite andb_false_r.
  - destruct (first_onclick_containing_Some _ _ _ Hq) as [e He].
    rewrite (is_active_showSection _ _ _ _ _ _ He).
    rewrite (bool_decide_eq_true_2 (Some q = Some q)) by done.
    apply orb_true_r.
  - by rewrite showSection_scrollTo_calls, Hnone.
Qed.

Lemma handleInitialLoad_unnamed_hash_hides_sections_witness :
  substring1 (location_hash (Sample.page 1024 "#Section")) ≠ "" ∧
  css_plain "Section" = true ∧
  first_onclick_containing "Section" (elements (Sample.page 1024 "#Section"))
  = Some 1 ∧
  getElementById "Section" (elements (Sample.page 1024 "#Section")) = None ∧
  is_active 5 (Sample.page 1024 "#Section") = true ∧
  ∃ p', handleInitialLoad Sample.env (Sample.page 1024 "#Section") = Returns p' ∧
        is_active 5 p' = false.
Proof.
  assert (substring1 (location_hash (Sample.page 1024 "#Section")) ≠ "")
    as Hne by discriminate.
  destruct (handleInitialLoad_unnamed_hash_hides_sections Sample.env
              (Sample.page 1024 "#Section") 1 Hne eq_refl eq_refl eq_refl)
    as (p' & Hp' & Hhidden & _ & _).
  split; [exact Hne|]. split; [reflexivity|]. split; [reflexivity|].
  split; [reflexivity|]. split; [reflexivity|].
  exists p'. split; [exact Hp'|]. apply Hhidden; [reflexivity|discriminate].
Defined.
